(** * action-eslint: a shallow embedding of [dist/main.js]

    The action selects the files changed by a pull request or a push,
    runs ESLint over them and reports the findings as a GitHub check run.
    This development embeds the two functions of [dist/main.js], [lint]
    and [run], together with the JavaScript primitives they rely on, and
    proves the properties of the specification about them.

    Conventions of the embedding.
    - JavaScript numbers that the program only compares, prints and copies
      (counts, line and column numbers, check-run ids, severities) are [Z].
    - JavaScript strings are [string]; paths and names are taken to be
      ASCII, so that one character is one code unit.
    - [undefined] and [null] are [None]; a value that may be absent is an
      [option].
    - Calls that leave the process (GitHub API, ESLint, console, the
      actions toolkit) are recorded as events of a trace, and their answers
      are read from an environment record; a call either returns or throws.
    - Time stamps ([new Date().toISOString()]) and the repository
      coordinates spread from [context.repo] are left out of the events. *)

From Stdlib Require Import String Ascii List ZArith Bool Lia DecimalString.
Import ListNotations.

Local Open Scope string_scope.
Local Open Scope Z_scope.

(** ** JavaScript primitives *)

Module JS.

(** ToBoolean on strings: only the empty string is falsy. *)
Definition truthy_string (s : string) : bool :=
  match s with
  | EmptyString => false
  | String _ _ => true
  end.

(** ToBoolean on numbers, restricted to integers: only 0 is falsy. *)
Definition truthy_number (n : Z) : bool := negb (n =? 0).

(** ToBoolean on a string that may be [null] or [undefined]. *)
Definition truthy_opt_string (o : option string) : bool :=
  match o with
  | None => false
  | Some s => truthy_string s
  end.

(** ToBoolean on a number that may be [undefined]. *)
Definition truthy_opt_number (o : option Z) : bool :=
  match o with
  | None => false
  | Some n => truthy_number n
  end.

(** [a || b] where [a] is an optional number and [b] a number. *)
Definition or_number (a : option Z) (b : Z) : Z :=
  match a with
  | Some n => if truthy_number n then n else b
  | None => b
  end.

(** [a || b] where [a] is an optional string and [b] a string. *)
Definition or_string (a : option string) (b : string) : string :=
  match a with
  | Some s => if truthy_string s then s else b
  | None => b
  end.

(** [a || b] where [a] is an array that may be [null] or [undefined]:
    every array, also the empty one, is truthy. *)
Definition or_array {A : Type} (a : option (list A)) (b : list A) : list A :=
  match a with
  | Some l => l
  | None => b
  end.

(** Number to string, for integers in the range where JavaScript prints
    plain decimal digits. *)
Definition string_of_number (n : Z) : string :=
  NilZero.string_of_int (Z.to_int n).

(** A template-literal hole filled with a value that may be [undefined]. *)
Definition string_of_undefinable (o : option string) : string :=
  match o with
  | Some s => s
  | None => "undefined"
  end.

(** A template-literal hole filled with a value that may be [null]. *)
Definition string_of_nullable (o : option string) : string :=
  match o with
  | Some s => s
  | None => "null"
  end.

(** [arr[i]] on an array that may have holes: out of range and holes both
    read as [undefined]. *)
Definition index {A : Type} (arr : list (option A)) (i : Z) : option A :=
  if (0 <=? i) && (i <? Z.of_nat (List.length arr))
  then nth (Z.to_nat i) arr None
  else None.

(** [s.substring(n)] for [0 <= n]: the characters from position [n] on,
    the empty string when [n] is past the end. *)
Fixpoint substring_from (n : nat) (s : string) : string :=
  match n, s with
  | O, _ => s
  | S n', String _ s' => substring_from n' s'
  | S _, EmptyString => EmptyString
  end.

(** [s.slice(i, j)] for [0 <= i <= j]. *)
Definition slice (s : string) (i j : nat) : string :=
  String.substring i (j - i) s.

(** [s.startsWith(p)]. *)
Fixpoint startsWith (p s : string) : bool :=
  match p, s with
  | EmptyString, _ => true
  | String a p', String b s' => Ascii.eqb a b && startsWith p' s'
  | String _ _, EmptyString => false
  end.

(** [s.includes(p)]: [p] occurs somewhere in [s]. *)
Fixpoint includes (p s : string) : bool :=
  startsWith p s ||
  match s with
  | EmptyString => false
  | String _ s' => includes p s'
  end.

(** [s.endsWith(p)]. *)
Fixpoint endsWith (p s : string) : bool :=
  String.eqb p s ||
  match s with
  | EmptyString => false
  | String _ s' => endsWith p s'
  end.

(** [s.toLowerCase()] on ASCII. *)
Definition lower_ascii (c : ascii) : ascii :=
  let n := nat_of_ascii c in
  if (65 <=? n)%nat && (n <=? 90)%nat then ascii_of_nat (n + 32) else c.

Fixpoint toLowerCase (s : string) : string :=
  match s with
  | EmptyString => EmptyString
  | String c s' => String (lower_ascii c) (toLowerCase s')
  end.

(** [arr.join('')]. *)
Definition join (l : list string) : string := String.concat "" l.

(** [arr.find(p)]. *)
Definition find {A : Type} (p : A -> bool) (l : list A) : option A :=
  List.find p l.

End JS.

(** ** Node's [path.extname] (POSIX flavour)

    The scan runs from the last character to the first, as the library
    does: it skips trailing separators, remembers the right-most dot of the
    last path component and whether anything but dots precedes it. *)

Module Path.

Record scan : Type := mkScan {
  startDot : Z;
  startPart : Z;
  end_ : Z;
  matchedSlash : bool;
  preDotState : Z
}.

Definition scan0 : scan :=
  {| startDot := -1; startPart := 0; end_ := -1;
     matchedSlash := true; preDotState := 0 |}.

Definition is_slash (c : ascii) : bool := Ascii.eqb c "/"%char.
Definition is_dot (c : ascii) : bool := Ascii.eqb c "."%char.

(** One character that is not a separator, at position [i]. *)
Definition scan_char (c : ascii) (i : Z) (st : scan) : scan :=
  let st1 :=
    if end_ st =? -1
    then {| startDot := startDot st; startPart := startPart st;
            end_ := i + 1; matchedSlash := false;
            preDotState := preDotState st |}
    else st in
  if is_dot c then
    if startDot st1 =? -1
    then {| startDot := i; startPart := startPart st1; end_ := end_ st1;
            matchedSlash := matchedSlash st1;
            preDotState := preDotState st1 |}
    else if negb (preDotState st1 =? 1)
    then {| startDot := startDot st1; startPart := startPart st1;
            end_ := end_ st1; matchedSlash := matchedSlash st1;
            preDotState := 1 |}
    else st1
  else if negb (startDot st1 =? -1)
  then {| startDot := startDot st1; startPart := startPart st1;
          end_ := end_ st1; matchedSlash := matchedSlash st1;
          preDotState := -1 |}
  else st1.

(** The loop [for (i = path.length - 1; i >= 0; --i)]; [k] is [i + 1]. *)
Fixpoint scan_loop (path : string) (k : nat) (st : scan) : scan :=
  match k with
  | O => st
  | S i =>
      match String.get i path with
      | None => st
      | Some c =>
          if is_slash c then
            if negb (matchedSlash st)
            then {| startDot := startDot st; startPart := Z.of_nat i + 1;
                    end_ := end_ st; matchedSlash := matchedSlash st;
                    preDotState := preDotState st |}
            else scan_loop path i st
          else scan_loop path i (scan_char c (Z.of_nat i) st)
      end
  end.

Definition extname (path : string) : string :=
  let st := scan_loop path (String.length path) scan0 in
  if (startDot st =? -1)
     || (end_ st =? -1)
     || (preDotState st =? 0)
     || ((preDotState st =? 1)
         && (startDot st =? end_ st - 1)
         && (startDot st =? startPart st + 1))
  then ""
  else JS.slice path (Z.to_nat (startDot st)) (Z.to_nat (end_ st)).

End Path.

(** ** Constants of the module *)

Definition ACTION_NAME : string := "ESLint".

(** [new Set(['.ts', '.js'])], in insertion order. *)
Definition EXTENSIONS : list string := [".ts"; ".js"].

(** [EXTENSIONS.has(x)]. *)
Definition EXTENSIONS_has (x : string) : bool :=
  existsb (String.eqb x) EXTENSIONS.

(** ** Data exchanged with the collaborators *)

(** What [CLIEngine.executeOnFiles] returns. *)
Module ESLint.

Record LintMessage : Type := mkLintMessage {
  line : Z;
  endLine : option Z;
  column : Z;
  endColumn : option Z;
  severity : Z;
  ruleId : option string;
  message : string
}.

Record LintResult : Type := mkLintResult {
  filePath : string;
  messages : list LintMessage
}.

Record LintReport : Type := mkLintReport {
  results : list LintResult;
  errorCount : Z;
  warningCount : Z
}.

End ESLint.

(** What the checks API receives and returns. *)
Module Checks.

Record Annotation : Type := mkAnnotation {
  path : string;
  start_line : Z;
  end_line : Z;
  start_column : Z;
  end_column : Z;
  annotation_level : option string;
  title : string;
  message : string
}.

Record Output : Type := mkOutput {
  output_title : string;
  summary : string;
  annotations : list Annotation
}.

(** The object [lint] returns. *)
Record Report : Type := mkReport {
  conclusion : string;
  output : Output
}.

(** An entry of [checks.data.check_runs]. *)
Record CheckRun : Type := mkCheckRun {
  name : string;
  id : Z
}.

End Checks.

(** What the two file queries return. *)
Module Files.

(** An entry of [info.repository.pullRequest.files.nodes]. *)
Record FileNode : Type := mkFileNode {
  path : string
}.

(** [info.repository.pullRequest]: [files.nodes], and the [commit.oid] of
    each entry of [commits.nodes]. *)
Record PullRequest : Type := mkPullRequest {
  files_nodes : list FileNode;
  commits_nodes : list string
}.

(** An entry of [info.data.files]. *)
Record CommitFile : Type := mkCommitFile {
  filename : string;
  status : string
}.

End Files.

(** ** Effects: a trace of calls and an outcome *)

Inductive event : Type :=
| console_log (text : string)
| core_debug (text : string)
| core_setFailed (text : string)
| octokit_graphql (prNumber : Z)
| octokit_repos_getCommit (ref : string)
| octokit_checks_listForRef (status ref : string)
| octokit_checks_create (name head_sha status : string)
| octokit_checks_update (check_run_id : Z) (conclusion : string)
    (output : option Checks.Output)
| cli_executeOnFiles (files : list string).

Inductive outcome (A : Type) : Type :=
| Returned (a : A)
| Thrown (error_message : string).

Arguments Returned {A} a.
Arguments Thrown {A} error_message.

(** A computation: the calls it made, in order, and how it ended. *)
Definition M (A : Type) : Type := (list event * outcome A)%type.

Definition ret {A : Type} (a : A) : M A := ([], Returned a).

Definition throw {A : Type} (e : string) : M A := ([], Thrown e).

Definition bind {A B : Type} (m : M A) (f : A -> M B) : M B :=
  match m with
  | (t, Returned a) => let (t', r) := f a in ((t ++ t')%list, r)
  | (t, Thrown e) => (t, Thrown e)
  end.

(** An effect with no answer. *)
Definition emit (e : event) : M unit := ([e], Returned tt).

(** A call to a collaborator, with the answer it gave. *)
Definition call {A : Type} (e : event) (answer : outcome A) : M A :=
  ([e], answer).

(** [try { m } catch (error) { h error.message }]. *)
Definition try_catch {A : Type} (m : M A) (h : string -> M A) : M A :=
  match m with
  | (t, Returned a) => (t, Returned a)
  | (t, Thrown e) => let (t', r) := h e in ((t ++ t')%list, r)
  end.

Definition trace {A : Type} (m : M A) : list event := fst m.
Definition result {A : Type} (m : M A) : outcome A := snd m.

Declare Scope js_scope.
Delimit Scope js_scope with js.
Notation "x <- c1 ;; c2" := (bind c1 (fun x => c2))
  (at level 61, c1 at next level, right associativity) : js_scope.
Notation "c1 ;; c2" := (bind c1 (fun _ => c2))
  (at level 61, right associativity) : js_scope.
Local Open Scope js_scope.

(** ** The environment of one run *)

Record Env : Type := mkEnv {
  (** [process.env] *)
  GITHUB_SHA : string;
  GITHUB_WORKSPACE : string;
  (** [context.issue && context.issue.number] *)
  issue_number : option Z;
  (** [core.getInput(name)] *)
  getInput : string -> string;
  (** [octokit.graphql], by pull-request number *)
  graphql : Z -> outcome Files.PullRequest;
  (** [octokit.repos.getCommit], by ref; the answer's [data.files] *)
  getCommit : string -> outcome (list Files.CommitFile);
  (** [octokit.checks.listForRef], by ref; the answer's [data.check_runs] *)
  listForRef : string -> outcome (list Checks.CheckRun);
  (** [octokit.checks.create], by head sha; the answer's [data.id] *)
  create : string -> outcome Z;
  (** [octokit.checks.update] *)
  update : Z -> string -> option Checks.Output -> outcome unit;
  (** loading ESLint and [cli.executeOnFiles] *)
  executeOnFiles : list string -> outcome ESLint.LintReport
}.

Definition nl : string := String (ascii_of_nat 10) EmptyString.

Definition permission_warning : string :=
  "##[warning] Token doesn't have permission to access this resource.".

(** ** [lint] *)

Definition levels : list (option string) :=
  [Some "notice"; Some "warning"; Some "failure"].

(** [[, 'warning', 'error']]: index 0 is a hole. *)
Definition consoleLevels : list (option string) :=
  [None; Some "warning"; Some "error"].

(** [filePath.substring(GITHUB_WORKSPACE.length + 1)]. *)
Definition relative_path (workspace filePath : string) : string :=
  JS.substring_from (String.length workspace + 1) filePath.

(** The object pushed onto [annotations] for one message. *)
Definition annotation_of (path : string) (msg : ESLint.LintMessage)
  : Checks.Annotation :=
  {| Checks.path := path;
     Checks.start_line := ESLint.line msg;
     Checks.end_line := JS.or_number (ESLint.endLine msg) (ESLint.line msg);
     Checks.start_column := ESLint.column msg;
     Checks.end_column :=
       JS.or_number (ESLint.endColumn msg) (ESLint.column msg);
     Checks.annotation_level := JS.index levels (ESLint.severity msg);
     Checks.title := JS.or_string (ESLint.ruleId msg) ACTION_NAME;
     Checks.message :=
       ESLint.message msg ++
       (if JS.truthy_opt_string (ESLint.ruleId msg)
        then nl ++ "https://eslint.org/docs/rules/" ++
             JS.string_of_nullable (ESLint.ruleId msg)
        else "") |}.

(** The level written in the console line of one message. *)
Definition consoleLevel_of (msg : ESLint.LintMessage) : option string :=
  JS.index consoleLevels (ESLint.severity msg).

(** The second string pushed onto [consoleOutput] for one message. *)
Definition console_line (msg : ESLint.LintMessage) : string :=
  "##[" ++ JS.string_of_undefinable (consoleLevel_of msg) ++ "]  " ++
  JS.string_of_number (ESLint.line msg) ++ ":" ++
  JS.string_of_number (ESLint.column msg) ++ "  " ++
  JS.string_of_undefinable (consoleLevel_of msg) ++ "  " ++
  ESLint.message msg ++ "  " ++
  JS.string_of_nullable (ESLint.ruleId msg) ++ nl ++ nl.

(** The two arrays the loops fill. *)
Definition buffers : Type := (list Checks.Annotation * list string)%type.

(** Body of the inner loop. *)
Definition push_message (path : string) (acc : buffers)
  (msg : ESLint.LintMessage) : buffers :=
  ((fst acc ++ [annotation_of path msg])%list,
   (snd acc ++ [(path ++ nl)%string; console_line msg])%list).

(** Body of the outer loop. *)
Definition push_result (workspace : string) (acc : buffers)
  (res : ESLint.LintResult) : buffers :=
  fold_left (push_message (relative_path workspace (ESLint.filePath res)))
    (ESLint.messages res) acc.

Definition collect (workspace : string) (results : list ESLint.LintResult)
  : buffers :=
  fold_left (push_result workspace) results ([], []).

Definition summary_of (errorCount warningCount : Z) : string :=
  JS.string_of_number errorCount ++ " error(s), " ++
  JS.string_of_number warningCount ++ " warning(s) found".

(** The object [lint] returns, from what the engine returned. *)
Definition report_of (env : Env) (report : ESLint.LintReport)
  : Checks.Report :=
  {| Checks.conclusion :=
       if ESLint.errorCount report >? 0 then "failure" else "success";
     Checks.output :=
       {| Checks.output_title := ACTION_NAME;
          Checks.summary :=
            summary_of (ESLint.errorCount report)
              (ESLint.warningCount report);
          Checks.annotations :=
            fst (collect (GITHUB_WORKSPACE env) (ESLint.results report)) |} |}.

Definition lint (env : Env) (files : option (list string))
  : M Checks.Report :=
  let target := JS.or_array files ["src"] in
  report <- call (cli_executeOnFiles target) (executeOnFiles env target) ;;
  let collected := collect (GITHUB_WORKSPACE env) (ESLint.results report) in
  emit (console_log (JS.join (snd collected))) ;;
  ret (report_of env report).

(** ** [run] *)

(** The predicate of the pull-request filter. *)
Definition keep_file_node (file : Files.FileNode) : bool :=
  EXTENSIONS_has (Path.extname (Files.path file))
  && negb (JS.includes ".d.ts" (Files.path file)).

(** [files.filter(...).map(f => f.path)] of the pull-request branch. *)
Definition select_pull_request_files (nodes : list Files.FileNode)
  : list string :=
  map Files.path (filter keep_file_node nodes).

(** The predicate of the push filter. *)
Definition keep_commit_file (file : Files.CommitFile) : bool :=
  EXTENSIONS_has (Path.extname (Files.filename file))
  && negb (JS.includes ".d.ts" (Files.filename file))
  && negb (String.eqb (Files.status file) "removed")
  && negb (String.eqb (Files.status file) "changed").

(** [files.filter(...).map(f => f.filename)] of the push branch. *)
Definition select_commit_files (files : list Files.CommitFile)
  : list string :=
  map Files.filename (filter keep_commit_file files).

(** Lines 54 to 106: the commit to report on and the files to lint.
    Reading [commits.nodes[0].commit] when [nodes] is empty raises a
    TypeError outside every [try]; its text depends on the Node version. *)
Definition select_files (env : Env) : M (string * option (list string)) :=
  if JS.truthy_opt_number (issue_number env) then
    let prNumber := match issue_number env with Some n => n | None => 0 end in
    info <- try_catch
              (i <- call (octokit_graphql prNumber) (graphql env prNumber) ;;
               ret (Some i))
              (fun _ => emit (console_log permission_warning) ;; ret None) ;;
    match info with
    | Some pr =>
        currentSha <-
          match Files.commits_nodes pr with
          | oid :: _ => ret oid
          | [] => throw "Cannot read property 'commit' of undefined"
          end ;;
        ret (currentSha, Some (select_pull_request_files (Files.files_nodes pr)))
    | None => ret (GITHUB_SHA env, None)
    end
  else
    info <- try_catch
              (i <- call (octokit_repos_getCommit (GITHUB_SHA env))
                      (getCommit env (GITHUB_SHA env)) ;;
               ret (Some i))
              (fun _ => emit (console_log permission_warning) ;; ret None) ;;
    match info with
    | Some files => ret (GITHUB_SHA env, Some (select_commit_files files))
    | None => ret (GITHUB_SHA env, None)
    end.

(** Lines 108 to 138: the check run to complete, reused or created. *)
Definition obtain_check_run (env : Env) (currentSha : string)
  : M (option Z) :=
  let jobName := getInput env "job-name" in
  id <- (if JS.truthy_string jobName then
           try_catch
             (checks <- call (octokit_checks_listForRef "in_progress" currentSha)
                          (listForRef env currentSha) ;;
              match JS.find
                      (fun c => String.eqb (JS.toLowerCase (Checks.name c))
                                  (JS.toLowerCase jobName)) checks with
              | Some check => ret (Some (Checks.id check))
              | None => ret None
              end)
             (fun _ => emit (console_log permission_warning) ;; ret None)
         else ret None) ;;
  if negb (JS.truthy_opt_number id) then
    try_catch
      (i <- call (octokit_checks_create ACTION_NAME currentSha "in_progress")
              (create env currentSha) ;;
       ret (Some i))
      (fun _ => emit (console_log permission_warning) ;; ret id)
  else ret id.

(** [if (id) { try { await octokit.checks.update(...) } catch { ... } }]. *)
Definition update_check_run (env : Env) (id : option Z)
  (conclusion : string) (output : option Checks.Output) : M unit :=
  match id with
  | Some i =>
      if JS.truthy_number i then
        try_catch
          (call (octokit_checks_update i conclusion output)
             (update env i conclusion output))
          (fun _ => emit (console_log permission_warning))
      else ret tt
  | None => ret tt
  end.

(** The argument [lintAll ? null : lintFiles]. *)
Definition lint_argument (env : Env) (lintFiles : option (list string))
  : option (list string) :=
  if JS.truthy_string (getInput env "lint-all") then None else lintFiles.

(** Lines 139 to 175: lint, complete the check run, signal the result. *)
Definition lint_and_report (env : Env) (id : option Z)
  (lintFiles : option (list string)) : M unit :=
  try_catch
    (report <- lint env (lint_argument env lintFiles) ;;
     update_check_run env id (Checks.conclusion report)
       (Some (Checks.output report)) ;;
     emit (core_debug (Checks.summary (Checks.output report))) ;;
     if String.eqb (Checks.conclusion report) "failure"
     then emit (core_setFailed (Checks.summary (Checks.output report)))
     else ret tt)
    (fun error_message =>
       update_check_run env id "failure" None ;;
       emit (core_setFailed error_message)).

Definition run (env : Env) : M unit :=
  selected <- select_files env ;;
  let currentSha := fst selected in
  let lintFiles := snd selected in
  emit (core_debug ("Commit: " ++ currentSha)) ;;
  id <- obtain_check_run env currentSha ;;
  lint_and_report env id lintFiles.

(** The arguments of the calls to [cli.executeOnFiles] in a trace, in
    order: what was linted. *)
Fixpoint lint_calls (t : list event) : list (list string) :=
  match t with
  | [] => []
  | cli_executeOnFiles files :: t' => files :: lint_calls t'
  | _ :: t' => lint_calls t'
  end.

(** The messages passed to [core.setFailed] in a trace, in order. *)
Fixpoint failure_signals (t : list event) : list string :=
  match t with
  | [] => []
  | core_setFailed text :: t' => text :: failure_signals t'
  | _ :: t' => failure_signals t'
  end.

(** The calls to [octokit.checks.update] in a trace, in order: the check
    run, the conclusion and the output sent. *)
Fixpoint check_updates (t : list event)
  : list (Z * string * option Checks.Output) :=
  match t with
  | [] => []
  | octokit_checks_update i c o :: t' => (i, c, o) :: check_updates t'
  | _ :: t' => check_updates t'
  end.

(** Neither a slash nor a dot. *)
Definition plain_char (c : ascii) : bool :=
  negb (Path.is_slash c) && negb (Path.is_dot c).

(** Every character of [s] satisfies [p]. *)
Fixpoint all_chars (p : ascii -> bool) (s : string) : bool :=
  match s with
  | EmptyString => true
  | String c s' => p c && all_chars p s'
  end.

(** ** The loops of [lint], read file by file *)

(** The annotations of one file's result, in message order. *)
Definition annotations_of_result (workspace : string)
  (res : ESLint.LintResult) : list Checks.Annotation :=
  map (annotation_of (relative_path workspace (ESLint.filePath res)))
    (ESLint.messages res).

(** The console strings of one file's result, two per message. *)
Definition console_of_result (workspace : string)
  (res : ESLint.LintResult) : list string :=
  flat_map
    (fun msg =>
       [ (relative_path workspace (ESLint.filePath res) ++ nl)%string;
         console_line msg ])
    (ESLint.messages res).

(** ** Sample runs *)

Module Samples.

Definition msg_error : ESLint.LintMessage :=
  {| ESLint.line := 3; ESLint.endLine := Some 4; ESLint.column := 7;
     ESLint.endColumn := Some 9; ESLint.severity := 2;
     ESLint.ruleId := Some "no-undef"; ESLint.message := "x is not defined" |}.

Definition msg_warning : ESLint.LintMessage :=
  {| ESLint.line := 10; ESLint.endLine := None; ESLint.column := 1;
     ESLint.endColumn := None; ESLint.severity := 1;
     ESLint.ruleId := Some "semi"; ESLint.message := "Missing semicolon" |}.

Definition msg_off : ESLint.LintMessage :=
  {| ESLint.line := 1; ESLint.endLine := None; ESLint.column := 1;
     ESLint.endColumn := None; ESLint.severity := 0;
     ESLint.ruleId := None; ESLint.message := "note" |}.

Definition report_clean : ESLint.LintReport :=
  {| ESLint.results :=
       [ {| ESLint.filePath := "/home/runner/work/src/a.ts";
            ESLint.messages := [msg_warning; msg_warning] |} ];
     ESLint.errorCount := 0;
     ESLint.warningCount := 2 |}.

Definition report_dirty : ESLint.LintReport :=
  {| ESLint.results :=
       [ {| ESLint.filePath := "/home/runner/work/src/a.ts";
            ESLint.messages := [msg_error; msg_warning] |};
         {| ESLint.filePath := "/home/runner/work/src/b.js";
            ESLint.messages := [msg_off] |} ];
     ESLint.errorCount := 1;
     ESLint.warningCount := 1 |}.

Definition pull_request : Files.PullRequest :=
  {| Files.files_nodes :=
       [ {| Files.path := "a.ts" |}; {| Files.path := "b.d.ts" |};
         {| Files.path := "c.py" |} ];
     Files.commits_nodes := ["0123abc"] |}.

Definition no_input (name : string) : string := "".

(** A pull-request run where every call succeeds. *)
Definition env_pull_request : Env :=
  {| GITHUB_SHA := "deadbeef";
     GITHUB_WORKSPACE := "/home/runner/work";
     issue_number := Some 17;
     getInput := no_input;
     graphql := fun _ => Returned pull_request;
     getCommit := fun _ => Thrown "Not Found";
     listForRef := fun _ => Returned [];
     create := fun _ => Returned 42;
     update := fun _ _ _ => Returned tt;
     executeOnFiles := fun _ => Returned report_clean |}.

(** The same run when the pull-request query is refused. *)
Definition env_query_refused : Env :=
  {| GITHUB_SHA := "deadbeef";
     GITHUB_WORKSPACE := "/home/runner/work";
     issue_number := Some 17;
     getInput := no_input;
     graphql := fun _ => Thrown "Resource not accessible by integration";
     getCommit := fun _ => Thrown "Not Found";
     listForRef := fun _ => Returned [];
     create := fun _ => Returned 42;
     update := fun _ _ _ => Returned tt;
     executeOnFiles := fun _ => Returned report_dirty |}.

(** A push run whose lint step throws. *)
Definition env_engine_throws : Env :=
  {| GITHUB_SHA := "deadbeef";
     GITHUB_WORKSPACE := "/home/runner/work";
     issue_number := None;
     getInput := no_input;
     graphql := fun _ => Thrown "unused";
     getCommit := fun _ =>
       Returned [ {| Files.filename := "src/a.ts"; Files.status := "modified" |} ];
     listForRef := fun _ => Returned [];
     create := fun _ => Returned 42;
     update := fun _ _ _ => Returned tt;
     executeOnFiles := fun _ => Thrown "No files matching 'src/a.ts' were found." |}.

(** A run with the given value of the [lint-all] input. *)
Definition env_lint_all (value : string) : Env :=
  {| GITHUB_SHA := "deadbeef";
     GITHUB_WORKSPACE := "/home/runner/work";
     issue_number := Some 17;
     getInput := fun name => if String.eqb name "lint-all" then value else "";
     graphql := fun _ => Returned pull_request;
     getCommit := fun _ => Thrown "Not Found";
     listForRef := fun _ => Returned [];
     create := fun _ => Returned 42;
     update := fun _ _ _ => Returned tt;
     executeOnFiles := fun _ => Returned report_clean |}.

(** A pull-request run in which no changed file passes the filter. *)
Definition env_nothing_to_lint : Env :=
  {| GITHUB_SHA := "deadbeef";
     GITHUB_WORKSPACE := "/home/runner/work";
     issue_number := Some 17;
     getInput := no_input;
     graphql := fun _ =>
       Returned
         {| Files.files_nodes :=
              [ {| Files.path := "b.d.ts" |}; {| Files.path := "c.py" |} ];
            Files.commits_nodes := ["0123abc"] |};
     getCommit := fun _ => Thrown "Not Found";
     listForRef := fun _ => Returned [];
     create := fun _ => Returned 42;
     update := fun _ _ _ => Returned tt;
     executeOnFiles := fun _ => Returned report_clean |}.

(** A push run that names the job whose check run is to be reused, in
    another letter case than the check run's name. *)
Definition env_reuse : Env :=
  {| GITHUB_SHA := "deadbeef";
     GITHUB_WORKSPACE := "/home/runner/work";
     issue_number := None;
     getInput := fun name => if String.eqb name "job-name" then "lint" else "";
     graphql := fun _ => Thrown "unused";
     getCommit := fun _ =>
       Returned [ {| Files.filename := "src/a.ts"; Files.status := "added" |} ];
     listForRef := fun _ =>
       Returned [ {| Checks.name := "build"; Checks.id := 5 |};
                  {| Checks.name := "Lint"; Checks.id := 7 |};
                  {| Checks.name := "lint"; Checks.id := 9 |} ];
     create := fun _ => Returned 42;
     update := fun _ _ _ => Returned tt;
     executeOnFiles := fun _ => Returned report_dirty |}.

(** A push run whose token may not touch the checks API at all. *)
Definition env_no_checks : Env :=
  {| GITHUB_SHA := "deadbeef";
     GITHUB_WORKSPACE := "/home/runner/work";
     issue_number := None;
     getInput := no_input;
     graphql := fun _ => Thrown "unused";
     getCommit := fun _ => Thrown "Resource not accessible by integration";
     listForRef := fun _ => Thrown "Resource not accessible by integration";
     create := fun _ => Thrown "Resource not accessible by integration";
     update := fun _ _ _ => Thrown "Resource not accessible by integration";
     executeOnFiles := fun _ => Returned report_dirty |}.

(** A pull-request query that answers with no commit. *)
Definition env_no_commit : Env :=
  {| GITHUB_SHA := "deadbeef";
     GITHUB_WORKSPACE := "/home/runner/work";
     issue_number := Some 17;
     getInput := no_input;
     graphql := fun _ =>
       Returned {| Files.files_nodes := [ {| Files.path := "a.ts" |} ];
                   Files.commits_nodes := [] |};
     getCommit := fun _ => Thrown "Not Found";
     listForRef := fun _ => Returned [];
     create := fun _ => Returned 42;
     update := fun _ _ _ => Returned tt;
     executeOnFiles := fun _ => Returned report_clean |}.

(** A report whose files are all clean. *)
Definition report_spotless : ESLint.LintReport :=
  {| ESLint.results :=
       [ {| ESLint.filePath := "/home/runner/work/src/a.ts";
            ESLint.messages := [] |};
         {| ESLint.filePath := "/home/runner/work/src/b.js";
            ESLint.messages := [] |} ];
     ESLint.errorCount := 0;
     ESLint.warningCount := 0 |}.

(** A message whose optional fields are present but falsy, and whose
    severity is out of range. *)
Definition msg_falsy : ESLint.LintMessage :=
  {| ESLint.line := 5; ESLint.endLine := Some 0; ESLint.column := 8;
     ESLint.endColumn := Some 0; ESLint.severity := 3;
     ESLint.ruleId := Some ""; ESLint.message := "odd" |}.

(** A push run over files that are all clean. *)
Definition env_spotless : Env :=
  {| GITHUB_SHA := "deadbeef";
     GITHUB_WORKSPACE := "/home/runner/work";
     issue_number := None;
     getInput := no_input;
     graphql := fun _ => Thrown "unused";
     getCommit := fun _ =>
       Returned [ {| Files.filename := "src/a.ts"; Files.status := "added" |};
                  {| Files.filename := "src/b.js"; Files.status := "modified" |} ];
     listForRef := fun _ => Returned [];
     create := fun _ => Returned 42;
     update := fun _ _ _ => Returned tt;
     executeOnFiles := fun _ => Returned report_spotless |}.

(** A push run that names a job while the listing of check runs is
    refused. *)
Definition env_listing_refused : Env :=
  {| GITHUB_SHA := "deadbeef";
     GITHUB_WORKSPACE := "/home/runner/work";
     issue_number := None;
     getInput := fun name => if String.eqb name "job-name" then "lint" else "";
     graphql := fun _ => Thrown "unused";
     getCommit := fun _ => Returned [];
     listForRef := fun _ => Thrown "Resource not accessible by integration";
     create := fun _ => Returned 42;
     update := fun _ _ _ => Returned tt;
     executeOnFiles := fun _ => Returned report_spotless |}.

End Samples.


(** * Properties *)

(** ** The primitives *)

Example extname_samples :
  map Path.extname
    ["a.ts"; "b.d.ts"; "c.py"; "index"; ".index"; ".index.md"; "index.";
     "src/a.b/c"; "x.js/"; ".."; "a.d.ts.js"; "dir.ts/file"; "a..js"]
  = [".ts"; ".ts"; ".py"; ""; ""; ".md"; ".";
     ""; ".js"; ""; ".js"; ""; ".js"].
Proof. reflexivity. Qed.

Section StringFacts.

Local Open Scope string_scope.

Lemma startsWith_append (p s : string) : JS.startsWith p (p ++ s) = true.
Proof.
  induction p as [|a p IH]; simpl; [reflexivity|].
  now rewrite Ascii.eqb_refl, IH.
Qed.

Lemma startsWith_split (p s : string) :
  JS.startsWith p s = true -> exists r, s = p ++ r.
Proof.
  revert s; induction p as [|a p IH]; intros s H.
  - now exists s.
  - destruct s as [|b s]; simpl in H; [discriminate|].
    apply andb_true_iff in H as [Hab Hps].
    apply Ascii.eqb_eq in Hab; subst b.
    destruct (IH _ Hps) as [r ->]. now exists r.
Qed.

(** [includes] is the substring test. *)
Lemma includes_spec (p s : string) :
  JS.includes p s = true <-> exists a b, s = a ++ p ++ b.
Proof.
  split.
  - induction s as [|c s IH]; simpl; intros H.
    + apply orb_true_iff in H as [H|H]; [|discriminate].
      destruct (startsWith_split _ _ H) as [r Hr]. now exists "", r.
    + apply orb_true_iff in H as [H|H].
      * destruct (startsWith_split _ _ H) as [r Hr]. now exists "", r.
      * destruct (IH H) as (a & b & ->). now exists (String c a), b.
  - intros (a & b & ->).
    induction a as [|c a IH]; simpl.
    + destruct (p ++ b) eqn:E; simpl.
      * destruct p; [reflexivity|discriminate].
      * rewrite <- E. change (JS.startsWith p (p ++ b) || JS.includes p s = true).
        now rewrite startsWith_append.
    + rewrite IH. apply orb_true_r.
Qed.

(** [endsWith] is the suffix test. *)
Lemma endsWith_spec (p s : string) :
  JS.endsWith p s = true <-> exists a, s = a ++ p.
Proof.
  split.
  - induction s as [|c s IH]; simpl; intros H.
    + apply orb_true_iff in H as [H|H]; [|discriminate].
      apply String.eqb_eq in H. subst. now exists "".
    + apply orb_true_iff in H as [H|H].
      * apply String.eqb_eq in H. subst. now exists "".
      * destruct (IH H) as (a & ->). now exists (String c a).
  - intros (a & ->).
    induction a as [|c a IH]; simpl.
    + destruct p; simpl; [reflexivity|].
      now rewrite Ascii.eqb_refl, String.eqb_refl.
    + rewrite IH. apply orb_true_r.
Qed.

Lemma append_empty_r (s : string) : s ++ "" = s.
Proof. induction s; simpl; congruence. Qed.

(** A suffix is in particular a substring. *)
Lemma endsWith_includes (p s : string) :
  JS.endsWith p s = true -> JS.includes p s = true.
Proof.
  intros H. apply endsWith_spec in H as (a & ->).
  apply includes_spec. exists a, "". now rewrite append_empty_r.
Qed.

End StringFacts.

(** ** File selection *)

Section FileSelection.



(** The push predicate is the pull-request predicate on the file name,
    together with the two status tests. *)
Lemma keep_commit_file_split (file : Files.CommitFile) :
  keep_commit_file file =
  keep_file_node {| Files.path := Files.filename file |}
  && negb (String.eqb (Files.status file) "removed")
  && negb (String.eqb (Files.status file) "changed").
Proof. reflexivity. Qed.


End FileSelection.

(** C3, as amended. The pull-request filter returns the paths of the
    changed files with those removed whose extension is neither [.ts] nor
    [.js] or in which the text [.d.ts] occurs somewhere: the paths kept
    stand in the order received, as often as received. Hence a path is
    selected exactly when it is a changed path that passes both tests, and
    every path that ends in [.d.ts] is dropped. For the changed files
    [a.ts], [b.d.ts], [c.py] the selected list is [[a.ts]], also through
    [select_files] on a pull-request event. *)
Theorem pull_request_selection (nodes : list Files.FileNode) :
  select_pull_request_files nodes
  = filter
      (fun p =>
         (String.eqb (Path.extname p) ".ts" || String.eqb (Path.extname p) ".js")
         && negb (JS.includes ".d.ts" p))
      (map Files.path nodes) /\
  (forall p,
     In p (select_pull_request_files nodes) <->
     In p (map Files.path nodes) /\
     (Path.extname p = ".ts" \/ Path.extname p = ".js") /\
     JS.includes ".d.ts" p = false) /\
  (forall p,
     JS.endsWith ".d.ts" p = true ->
     ~ In p (select_pull_request_files nodes)) /\
  select_pull_request_files
    [ {| Files.path := "a.ts" |}; {| Files.path := "b.d.ts" |};
      {| Files.path := "c.py" |} ] = ["a.ts"] /\
  result (select_files Samples.env_pull_request)
  = Returned ("0123abc", Some ["a.ts"]).
Proof.
  assert (Horder : select_pull_request_files nodes
     = filter
         (fun p =>
            (String.eqb (Path.extname p) ".ts"
             || String.eqb (Path.extname p) ".js")
            && negb (JS.includes ".d.ts" p))
         (map Files.path nodes)).
  { unfold select_pull_request_files.
    induction nodes as [|file nodes IH]; [reflexivity|].
    simpl. unfold keep_file_node at 1, EXTENSIONS_has, EXTENSIONS.
    cbn [existsb]. rewrite orb_false_r.
    destruct ((String.eqb (Path.extname (Files.path file)) ".ts"
               || String.eqb (Path.extname (Files.path file)) ".js")
              && negb (JS.includes ".d.ts" (Files.path file)));
      simpl; now rewrite IH. }
  assert (Hin : forall p,
     In p (select_pull_request_files nodes) <->
     In p (map Files.path nodes) /\
     (Path.extname p = ".ts" \/ Path.extname p = ".js") /\
     JS.includes ".d.ts" p = false).
  { intros p. rewrite Horder, filter_In, andb_true_iff, orb_true_iff.
    rewrite negb_true_iff, !String.eqb_eq. tauto. }
  split; [exact Horder|].
  split; [exact Hin|]. split; [|split; reflexivity].
  intros p Hend Hp. apply Hin in Hp as (_ & _ & Hinc).
  apply endsWith_includes in Hend. congruence.
Qed.

(** The reading of C3 by suffix fails: [a.d.ts.js] has extension [.js] and
    does not end in [.d.ts], yet the filter drops it. *)
Lemma pull_request_selection_not_by_suffix :
  ~ (forall (nodes : list Files.FileNode) (p : string),
       In p (select_pull_request_files nodes) <->
       In p (map Files.path nodes) /\
       (Path.extname p = ".ts" \/ Path.extname p = ".js") /\
       JS.endsWith ".d.ts" p = false).
Proof.
  intros H.
  specialize (H [ {| Files.path := "a.d.ts.js" |} ] "a.d.ts.js").
  destruct H as [_ H].
  assert (Hin : In "a.d.ts.js"
                  (select_pull_request_files [ {| Files.path := "a.d.ts.js" |} ])).
  { apply H. split; [left; reflexivity|]. split; [right|]; reflexivity. }
  vm_compute in Hin. exact Hin.
Qed.



(** ** The translator *)

Section Translator.

Variable workspace : string.

Lemma push_message_fold (path : string) (msgs : list ESLint.LintMessage)
  (acc : buffers) :
  fold_left (push_message path) msgs acc
  = (fst acc ++ map (annotation_of path) msgs,
     snd acc ++ flat_map
                  (fun msg => [ (path ++ nl)%string; console_line msg ]) msgs)%list.
Proof.
  revert acc; induction msgs as [|msg msgs IH]; intros [anns out]; simpl.
  - now rewrite !app_nil_r.
  - rewrite IH. simpl. now rewrite <- !app_assoc.
Qed.

Lemma push_result_fold (results : list ESLint.LintResult) (acc : buffers) :
  fold_left (push_result workspace) results acc
  = (fst acc ++ flat_map (annotations_of_result workspace) results,
     snd acc ++ flat_map (console_of_result workspace) results)%list.
Proof.
  revert acc; induction results as [|res results IH]; intros [anns out]; simpl.
  - now rewrite !app_nil_r.
  - rewrite IH. unfold push_result. rewrite push_message_fold. simpl.
    now rewrite <- !app_assoc.
Qed.

(** The loops collect the annotations file by file, message by message. *)
Lemma collect_flat_map (results : list ESLint.LintResult) :
  collect workspace results
  = (flat_map (annotations_of_result workspace) results,
     flat_map (console_of_result workspace) results).
Proof. unfold collect. now rewrite push_result_fold. Qed.

Lemma annotation_collected (results : list ESLint.LintResult)
  (res : ESLint.LintResult) (msg : ESLint.LintMessage) :
  In res results -> In msg (ESLint.messages res) ->
  In (annotation_of (relative_path workspace (ESLint.filePath res)) msg)
     (fst (collect workspace results)).
Proof.
  intros Hres Hmsg. rewrite collect_flat_map. simpl.
  apply in_flat_map. exists res. split; [exact Hres|].
  unfold annotations_of_result. now apply in_map.
Qed.

End Translator.

Section Lint.

Variable env : Env.

(** When the engine returns, [lint] logs the console text and returns. *)
Lemma lint_returned (files : option (list string)) (r : ESLint.LintReport) :
  executeOnFiles env (JS.or_array files ["src"]) = Returned r ->
  lint env files
  = ([ cli_executeOnFiles (JS.or_array files ["src"]);
       console_log
         (JS.join (snd (collect (GITHUB_WORKSPACE env) (ESLint.results r)))) ],
     Returned (report_of env r)).
Proof. intros H. unfold lint, call, bind. rewrite H. reflexivity. Qed.

(** When the engine throws, [lint] throws the same error. *)
Lemma lint_thrown (files : option (list string)) (e : string) :
  executeOnFiles env (JS.or_array files ["src"]) = Thrown e ->
  lint env files
  = ([ cli_executeOnFiles (JS.or_array files ["src"]) ], Thrown e).
Proof. intros H. unfold lint, call, bind. rewrite H. reflexivity. Qed.

End Lint.

(** C1. When the engine returns, the report's conclusion is [failure]
    exactly when the engine's [errorCount] is greater than 0, and
    [success] otherwise, whatever the two counts are. *)
Theorem conclusion_by_error_count (env : Env) (files : option (list string))
  (r : ESLint.LintReport) :
  executeOnFiles env (JS.or_array files ["src"]) = Returned r ->
  exists rep,
    result (lint env files) = Returned rep /\
    (Checks.conclusion rep = "failure" <-> ESLint.errorCount r > 0) /\
    (Checks.conclusion rep = "success" <-> ~ ESLint.errorCount r > 0).
Proof.
  intros H. exists (report_of env r).
  rewrite (lint_returned env files r H). split; [reflexivity|].
  unfold report_of; simpl.
  destruct (ESLint.errorCount r >? 0) eqn:E.
  - apply Z.gtb_lt in E. split; split; intros; try lia; try reflexivity.
    discriminate.
  - rewrite Z.gtb_ltb in E. apply Z.ltb_ge in E.
    split; split; intros; try lia; try reflexivity. discriminate.
Qed.

(** C1 on a run with one error and on a run with none. *)
Lemma conclusion_by_error_count_witness :
  (exists rep,
     result (lint Samples.env_query_refused None) = Returned rep /\
     (Checks.conclusion rep = "failure" <-> 1 > 0) /\
     (Checks.conclusion rep = "success" <-> ~ 1 > 0)) /\
  (exists rep,
     result (lint Samples.env_pull_request (Some ["a.ts"])) = Returned rep /\
     (Checks.conclusion rep = "failure" <-> 0 > 0) /\
     (Checks.conclusion rep = "success" <-> ~ 0 > 0)).
Proof.
  split.
  - exact (conclusion_by_error_count Samples.env_query_refused None
             Samples.report_dirty eq_refl).
  - exact (conclusion_by_error_count Samples.env_pull_request (Some ["a.ts"])
             Samples.report_clean eq_refl).
Defined.

Section ConsoleText.

Lemma string_append_assoc (a b c : string) :
  ((a ++ b) ++ c = a ++ b ++ c)%string.
Proof. induction a as [|x a IH]; simpl; [reflexivity | now rewrite IH]. Qed.

Lemma join_cons (x : string) (l : list string) :
  JS.join (x :: l) = (x ++ JS.join l)%string.
Proof.
  unfold JS.join. destruct l as [|y l]; simpl; [|reflexivity].
  now rewrite append_empty_r.
Qed.

Lemma join_app (l l' : list string) :
  JS.join (l ++ l') = (JS.join l ++ JS.join l')%string.
Proof.
  induction l as [|x l IH]; [reflexivity|].
  rewrite <- app_comm_cons, !join_cons, IH. now rewrite string_append_assoc.
Qed.

(** The text logged holds, for every message of the report, the relative
    path of its file on one line and its console line after it. *)
Lemma console_line_logged (workspace : string)
  (results : list ESLint.LintResult) (res : ESLint.LintResult)
  (msg : ESLint.LintMessage) :
  In res results -> In msg (ESLint.messages res) ->
  exists before after,
    JS.join (flat_map (console_of_result workspace) results)
    = (before ++
       (relative_path workspace (ESLint.filePath res) ++ nl) ++
       console_line msg ++ after)%string.
Proof.
  intros Hres Hmsg.
  apply in_split in Hres as (r1 & r2 & ->).
  apply in_split in Hmsg as (m1 & m2 & Hm).
  rewrite flat_map_app. simpl flat_map at 2.
  unfold console_of_result at 2. rewrite Hm, flat_map_app. simpl flat_map at 3.
  set (path := relative_path workspace (ESLint.filePath res)).
  set (f := fun m => [ (path ++ nl)%string; console_line m ]).
  exists (JS.join (flat_map (console_of_result workspace) r1)
          ++ JS.join (flat_map f m1))%string.
  exists (JS.join (flat_map f m2)
          ++ JS.join (flat_map (console_of_result workspace) r2))%string.
  rewrite !join_app, !join_cons.
  now rewrite !string_append_assoc.
Qed.

End ConsoleText.

(** C2. For every message of the engine's report, [lint] puts the
    message's annotation into the returned report and the message's
    console line, after the file's relative path, into the text it logs.
    For severity 0, 1 and 2 the annotation level is [notice], [warning]
    and [failure], and the console level is absent, [warning] and
    [error]; the console line carries that level twice, an absent one
    being printed as [undefined]. *)
Theorem levels_by_severity (env : Env) (files : option (list string))
  (r : ESLint.LintReport) (res : ESLint.LintResult)
  (msg : ESLint.LintMessage) :
  executeOnFiles env (JS.or_array files ["src"]) = Returned r ->
  In res (ESLint.results r) -> In msg (ESLint.messages res) ->
  exists rep text a line before after,
    lint env files
    = ([cli_executeOnFiles (JS.or_array files ["src"]); console_log text],
       Returned rep) /\
    In a (Checks.annotations (Checks.output rep)) /\
    a = annotation_of
          (relative_path (GITHUB_WORKSPACE env) (ESLint.filePath res)) msg /\
    text = (before ++
            (relative_path (GITHUB_WORKSPACE env) (ESLint.filePath res) ++ nl) ++
            line ++ after)%string /\
    line = console_line msg /\
    (ESLint.severity msg = 0 ->
     Checks.annotation_level a = Some "notice" /\
     consoleLevel_of msg = None /\
     line = ("##[undefined]  " ++
             JS.string_of_number (ESLint.line msg) ++ ":" ++
             JS.string_of_number (ESLint.column msg) ++ "  undefined  " ++
             ESLint.message msg ++ "  " ++
             JS.string_of_nullable (ESLint.ruleId msg) ++ nl ++ nl)%string) /\
    (ESLint.severity msg = 1 ->
     Checks.annotation_level a = Some "warning" /\
     consoleLevel_of msg = Some "warning" /\
     line = ("##[warning]  " ++
             JS.string_of_number (ESLint.line msg) ++ ":" ++
             JS.string_of_number (ESLint.column msg) ++ "  warning  " ++
             ESLint.message msg ++ "  " ++
             JS.string_of_nullable (ESLint.ruleId msg) ++ nl ++ nl)%string) /\
    (ESLint.severity msg = 2 ->
     Checks.annotation_level a = Some "failure" /\
     consoleLevel_of msg = Some "error" /\
     line = ("##[error]  " ++
             JS.string_of_number (ESLint.line msg) ++ ":" ++
             JS.string_of_number (ESLint.column msg) ++ "  error  " ++
             ESLint.message msg ++ "  " ++
             JS.string_of_nullable (ESLint.ruleId msg) ++ nl ++ nl)%string).
Proof.
  intros H Hres Hmsg.
  destruct (console_line_logged (GITHUB_WORKSPACE env) (ESLint.results r)
              res msg Hres Hmsg) as (before & after & Htext).
  exists (report_of env r).
  exists (JS.join (snd (collect (GITHUB_WORKSPACE env) (ESLint.results r)))).
  exists (annotation_of
            (relative_path (GITHUB_WORKSPACE env) (ESLint.filePath res)) msg).
  exists (console_line msg), before, after.
  split; [exact (lint_returned env files r H)|].
  split; [simpl; now apply annotation_collected|].
  split; [reflexivity|].
  split; [rewrite collect_flat_map; exact Htext|].
  split; [reflexivity|].
  unfold console_line, consoleLevel_of, annotation_of; simpl.
  split; [|split]; intros Hsev; rewrite Hsev; repeat split.
Qed.

(** C2 on a run whose report holds one message of each severity. *)
Lemma levels_by_severity_witness :
  exists rep text,
    lint Samples.env_query_refused None
    = ([cli_executeOnFiles ["src"]; console_log text], Returned rep) /\
    (exists a before after,
       In a (Checks.annotations (Checks.output rep)) /\
       Checks.annotation_level a = Some "notice" /\
       text = (before ++ ("src/b.js" ++ nl) ++
               ("##[undefined]  1:1  undefined  note  null" ++ nl ++ nl) ++
               after)%string) /\
    (exists a before after,
       In a (Checks.annotations (Checks.output rep)) /\
       Checks.annotation_level a = Some "warning" /\
       text = (before ++ ("src/a.ts" ++ nl) ++
               ("##[warning]  10:1  warning  Missing semicolon  semi"
                ++ nl ++ nl) ++ after)%string) /\
    (exists a before after,
       In a (Checks.annotations (Checks.output rep)) /\
       Checks.annotation_level a = Some "failure" /\
       text = (before ++ ("src/a.ts" ++ nl) ++
               ("##[error]  3:7  error  x is not defined  no-undef"
                ++ nl ++ nl) ++ after)%string).
Proof.
  destruct (levels_by_severity Samples.env_query_refused None
              Samples.report_dirty
              {| ESLint.filePath := "/home/runner/work/src/b.js";
                 ESLint.messages := [Samples.msg_off] |}
              Samples.msg_off eq_refl
              (or_intror (or_introl eq_refl)) (or_introl eq_refl))
    as (rep & text & a0 & l0 & b0 & c0 & Hlint & Hin0 & _ & Ht0 & _ & H0 & _).
  destruct (levels_by_severity Samples.env_query_refused None
              Samples.report_dirty
              {| ESLint.filePath := "/home/runner/work/src/a.ts";
                 ESLint.messages := [Samples.msg_error; Samples.msg_warning] |}
              Samples.msg_warning eq_refl
              (or_introl eq_refl) (or_intror (or_introl eq_refl)))
    as (rep1 & text1 & a1 & l1 & b1 & c1 & Hlint1 & Hin1 & _ & Ht1 & _ & _ & H1 & _).
  destruct (levels_by_severity Samples.env_query_refused None
              Samples.report_dirty
              {| ESLint.filePath := "/home/runner/work/src/a.ts";
                 ESLint.messages := [Samples.msg_error; Samples.msg_warning] |}
              Samples.msg_error eq_refl
              (or_introl eq_refl) (or_introl eq_refl))
    as (rep2 & text2 & a2 & l2 & b2 & c2 & Hlint2 & Hin2 & _ & Ht2 & _ & _ & _ & H2).
  assert (E1 : rep1 = rep /\ text1 = text).
  { rewrite Hlint in Hlint1. injection Hlint1 as Ha Hb. auto. }
  assert (E2 : rep2 = rep /\ text2 = text).
  { rewrite Hlint in Hlint2. injection Hlint2 as Ha Hb. auto. }
  destruct E1 as [-> ->]. destruct E2 as [-> ->].
  destruct (H0 eq_refl) as (Hl0 & _ & Hline0).
  destruct (H1 eq_refl) as (Hl1 & _ & Hline1).
  destruct (H2 eq_refl) as (Hl2 & _ & Hline2).
  exists rep, text. split; [exact Hlint|].
  split; [|split].
  - exists a0, b0, c0. split; [exact Hin0|]. split; [exact Hl0|].
    rewrite Ht0, Hline0. reflexivity.
  - exists a1, b1, c1. split; [exact Hin1|]. split; [exact Hl1|].
    rewrite Ht1, Hline1. reflexivity.
  - exists a2, b2, c2. split; [exact Hin2|]. split; [exact Hl2|].
    rewrite Ht2, Hline2. reflexivity.
Defined.

(** C7. Every message of the engine's report yields one annotation of the
    returned report, which starts at the message's line and column; its end
    line is the start line when [endLine] is absent and its end column is
    the start column when [endColumn] is absent. *)
Theorem annotation_end_defaults (env : Env) (files : option (list string))
  (r : ESLint.LintReport) (res : ESLint.LintResult)
  (msg : ESLint.LintMessage) :
  executeOnFiles env (JS.or_array files ["src"]) = Returned r ->
  In res (ESLint.results r) -> In msg (ESLint.messages res) ->
  exists rep a,
    result (lint env files) = Returned rep /\
    In a (Checks.annotations (Checks.output rep)) /\
    a = annotation_of
          (relative_path (GITHUB_WORKSPACE env) (ESLint.filePath res)) msg /\
    Checks.start_line a = ESLint.line msg /\
    Checks.start_column a = ESLint.column msg /\
    (ESLint.endLine msg = None -> Checks.end_line a = Checks.start_line a) /\
    (ESLint.endColumn msg = None ->
     Checks.end_column a = Checks.start_column a).
Proof.
  intros H Hres Hmsg.
  exists (report_of env r).
  exists (annotation_of
            (relative_path (GITHUB_WORKSPACE env) (ESLint.filePath res)) msg).
  rewrite (lint_returned env files r H).
  split; [reflexivity|]. split.
  - simpl. now apply annotation_collected.
  - split; [reflexivity|]. simpl. repeat split.
    + intros ->. reflexivity.
    + intros ->. reflexivity.
Qed.

(** C7 on a message that has neither [endLine] nor [endColumn]. *)
Lemma annotation_end_defaults_witness :
  exists rep a,
    result (lint Samples.env_pull_request (Some ["a.ts"])) = Returned rep /\
    In a (Checks.annotations (Checks.output rep)) /\
    a = annotation_of "src/a.ts" Samples.msg_warning /\
    Checks.start_line a = 10 /\ Checks.end_line a = 10 /\
    Checks.start_column a = 1 /\ Checks.end_column a = 1.
Proof.
  destruct (annotation_end_defaults Samples.env_pull_request (Some ["a.ts"])
              Samples.report_clean
              {| ESLint.filePath := "/home/runner/work/src/a.ts";
                 ESLint.messages :=
                   [Samples.msg_warning; Samples.msg_warning] |}
              Samples.msg_warning eq_refl (or_introl eq_refl)
              (or_introl eq_refl))
    as (rep & a & Hrep & Hin & Ha & Hl & Hc & Hel & Hec).
  exists rep, a. repeat split; try assumption.
  - rewrite (Hel eq_refl). exact Hl.
  - rewrite (Hec eq_refl). exact Hc.
Defined.

(** C8. When the engine returns, the summary is the error count, the text
    [ error(s), ], the warning count and the text [ warning(s) found]; with
    0 errors and 2 warnings the conclusion is [success] and the summary is
    [0 error(s), 2 warning(s) found]. *)
Theorem summary_text (env : Env) (files : option (list string))
  (r : ESLint.LintReport) :
  executeOnFiles env (JS.or_array files ["src"]) = Returned r ->
  exists rep,
    result (lint env files) = Returned rep /\
    Checks.summary (Checks.output rep)
    = (JS.string_of_number (ESLint.errorCount r) ++ " error(s), " ++
       JS.string_of_number (ESLint.warningCount r) ++ " warning(s) found")%string /\
    (ESLint.errorCount r = 0 -> ESLint.warningCount r = 2 ->
     Checks.conclusion rep = "success" /\
     Checks.summary (Checks.output rep) = "0 error(s), 2 warning(s) found").
Proof.
  intros H. exists (report_of env r).
  rewrite (lint_returned env files r H).
  split; [reflexivity|]. split; [reflexivity|].
  intros He Hw. unfold report_of, summary_of; simpl.
  rewrite He, Hw. split; reflexivity.
Qed.

(** C8 on a run with 0 errors and 2 warnings. *)
Lemma summary_text_witness :
  exists rep,
    result (lint Samples.env_pull_request (Some ["a.ts"])) = Returned rep /\
    Checks.conclusion rep = "success" /\
    Checks.summary (Checks.output rep) = "0 error(s), 2 warning(s) found".
Proof.
  destruct (summary_text Samples.env_pull_request (Some ["a.ts"])
              Samples.report_clean eq_refl) as (rep & Hrep & _ & H).
  exists rep. split; [exact Hrep|]. exact (H eq_refl eq_refl).
Defined.

(** ** The run *)

Section Run.

Variable env : Env.

Lemma lint_calls_app (t t' : list event) :
  lint_calls (t ++ t') = (lint_calls t ++ lint_calls t')%list.
Proof.
  induction t as [|e t IH]; [reflexivity|].
  destruct e; simpl; now rewrite IH.
Qed.

(** The guarded update never throws; it calls the API exactly when the id
    is truthy, and logs a warning when that call is refused. *)
Lemma update_check_run_shape (id : option Z) (c : string)
  (o : option Checks.Output) :
  exists t,
    update_check_run env id c o = (t, Returned tt) /\
    lint_calls t = [] /\
    (JS.truthy_opt_number id = false -> t = []) /\
    (forall i, id = Some i -> i <> 0 ->
       exists w, t = octokit_checks_update i c o :: w /\
                 (w = [] \/ w = [console_log permission_warning])).
Proof.
  unfold update_check_run.
  destruct id as [i|]; simpl.
  - unfold JS.truthy_number. destruct (i =? 0) eqn:E; simpl.
    + exists []. repeat split; try reflexivity.
      intros j [= <-] Hj. apply Z.eqb_eq in E. contradiction.
    + unfold call, try_catch.
      destruct (update env i c o) as [[]|e]; simpl.
      * exists [octokit_checks_update i c o].
        repeat split; try discriminate.
        intros j [= <-] _. exists []. auto.
      * exists [octokit_checks_update i c o; console_log permission_warning].
        repeat split; try discriminate.
        intros j [= <-] _. exists [console_log permission_warning]. auto.
  - exists []. repeat split; discriminate.
Qed.

(** Looking up or creating the check run never throws. *)
Lemma obtain_check_run_total (currentSha : string) :
  exists t id,
    obtain_check_run env currentSha = (t, Returned id) /\ lint_calls t = [].
Proof.
  unfold obtain_check_run, call, try_catch, bind, emit, ret.
  destruct (JS.truthy_string (getInput env "job-name")); simpl.
  - destruct (listForRef env currentSha) as [checks|e]; simpl.
    + destruct (JS.find _ checks) as [check|]; simpl.
      * destruct (JS.truthy_number (Checks.id check)); simpl; eauto.
        destruct (create env currentSha); simpl; eauto.
      * destruct (create env currentSha); simpl; eauto.
    + destruct (create env currentSha); simpl; eauto.
  - destruct (create env currentSha); simpl; eauto.
Qed.

(** Selecting the files does not call the linter. *)
Lemma select_files_quiet : lint_calls (trace (select_files env)) = [].
Proof.
  unfold select_files, call, try_catch, bind, emit, ret, throw.
  destruct (JS.truthy_opt_number (issue_number env)); simpl.
  - destruct (graphql env _) as [pr|e]; simpl; [|reflexivity].
    destruct (Files.commits_nodes pr); reflexivity.
  - destruct (getCommit env _) as [files|e]; reflexivity.
Qed.

(** The last phase when the engine throws: the guarded update with
    conclusion [failure] and no output, then the failure signal. *)
Lemma lint_and_report_thrown (id : option Z) (lintFiles : option (list string))
  (e : string) :
  executeOnFiles env (JS.or_array (lint_argument env lintFiles) ["src"])
  = Thrown e ->
  exists t,
    update_check_run env id "failure" None = (t, Returned tt) /\
    lint_and_report env id lintFiles
    = (cli_executeOnFiles (JS.or_array (lint_argument env lintFiles) ["src"])
         :: t ++ [core_setFailed e],
       Returned tt).
Proof.
  intros H.
  destruct (update_check_run_shape id "failure" None) as (t & Ht & _).
  exists t. split; [exact Ht|].
  unfold lint_and_report. rewrite (lint_thrown env _ e H).
  unfold try_catch, bind, emit. rewrite Ht. reflexivity.
Qed.

(** The last phase when the engine returns. *)
Lemma lint_and_report_returned (id : option Z)
  (lintFiles : option (list string)) (r : ESLint.LintReport) :
  executeOnFiles env (JS.or_array (lint_argument env lintFiles) ["src"])
  = Returned r ->
  exists t,
    update_check_run env id (Checks.conclusion (report_of env r))
      (Some (Checks.output (report_of env r))) = (t, Returned tt) /\
    lint_and_report env id lintFiles
    = (cli_executeOnFiles (JS.or_array (lint_argument env lintFiles) ["src"])
         :: console_log
              (JS.join (snd (collect (GITHUB_WORKSPACE env) (ESLint.results r))))
         :: t ++ core_debug (Checks.summary (Checks.output (report_of env r)))
         :: (if ESLint.errorCount r >? 0
             then [core_setFailed
                     (Checks.summary (Checks.output (report_of env r)))]
             else []),
       Returned tt).
Proof.
  intros H.
  destruct (update_check_run_shape id (Checks.conclusion (report_of env r))
              (Some (Checks.output (report_of env r)))) as (t & Ht & _).
  exists t. split; [exact Ht|].
  unfold lint_and_report. rewrite (lint_returned env _ r H).
  unfold try_catch, bind, emit, ret. rewrite Ht.
  unfold report_of at 1; simpl Checks.conclusion.
  destruct (ESLint.errorCount r >? 0); reflexivity.
Qed.

(** The last phase always completes, and calls the linter once, first. *)
Lemma lint_and_report_shape (id : option Z) (lintFiles : option (list string)) :
  exists t,
    lint_and_report env id lintFiles
    = (cli_executeOnFiles (JS.or_array (lint_argument env lintFiles) ["src"])
         :: t, Returned tt) /\
    lint_calls t = [].
Proof.
  destruct (executeOnFiles env
              (JS.or_array (lint_argument env lintFiles) ["src"])) as [r|e] eqn:E.
  - destruct (lint_and_report_returned id lintFiles r E) as (t & Ht & ->).
    eexists. split; [reflexivity|].
    destruct (update_check_run_shape id (Checks.conclusion (report_of env r))
                (Some (Checks.output (report_of env r)))) as (t' & Ht' & Hq & _).
    assert (t' = t) by congruence. subst t'.
    simpl. rewrite lint_calls_app, Hq. simpl.
    destruct (ESLint.errorCount r >? 0); reflexivity.
  - destruct (lint_and_report_thrown id lintFiles e E) as (t & Ht & ->).
    eexists. split; [reflexivity|].
    destruct (update_check_run_shape id "failure" None) as (t' & Ht' & Hq & _).
    assert (t' = t) by congruence. subst t'.
    rewrite lint_calls_app, Hq. reflexivity.
Qed.

(** Once the files are selected the run cannot abort: it looks up or
    creates the check run, lints once and reports. *)
Lemma run_shape (t1 : list event) (currentSha : string)
  (lintFiles : option (list string)) :
  select_files env = (t1, Returned (currentSha, lintFiles)) ->
  exists t2 id t3,
    obtain_check_run env currentSha = (t2, Returned id) /\
    lint_and_report env id lintFiles
    = (cli_executeOnFiles (JS.or_array (lint_argument env lintFiles) ["src"])
         :: t3, Returned tt) /\
    run env
    = ((t1 ++ core_debug ("Commit: " ++ currentSha)%string :: t2 ++
        cli_executeOnFiles (JS.or_array (lint_argument env lintFiles) ["src"])
          :: t3)%list,
       Returned tt) /\
    lint_calls (trace (run env))
    = [JS.or_array (lint_argument env lintFiles) ["src"]].
Proof.
  intros Hsel.
  destruct (obtain_check_run_total currentSha) as (t2 & id & Hid & Hq2).
  destruct (lint_and_report_shape id lintFiles) as (t3 & Hrep & Hq3).
  exists t2, id, t3. split; [exact Hid|]. split; [exact Hrep|].
  assert (Hrun : run env
    = ((t1 ++ core_debug ("Commit: " ++ currentSha)%string :: t2 ++
        cli_executeOnFiles (JS.or_array (lint_argument env lintFiles) ["src"])
          :: t3)%list, Returned tt)).
  { unfold run, bind at 1. rewrite Hsel. simpl fst; simpl snd.
    unfold emit, bind. rewrite Hid, Hrep. reflexivity. }
  split; [exact Hrun|].
  rewrite Hrun. unfold trace; simpl fst.
  pose proof select_files_quiet as Hq1. rewrite Hsel in Hq1.
  unfold trace in Hq1; simpl in Hq1.
  rewrite lint_calls_app, Hq1. simpl. rewrite lint_calls_app, Hq2. simpl.
  now rewrite Hq3.
Qed.

End Run.

(** C5. When the pull-request query throws, a warning is logged, no file
    list is selected and the commit is [GITHUB_SHA]; the run then goes on
    to the check run and lints the default directory [src], once, and
    completes. *)
Theorem query_failure_falls_back (env : Env) (n : Z) (e : string) :
  issue_number env = Some n -> n <> 0 -> graphql env n = Thrown e ->
  select_files env
  = ([octokit_graphql n; console_log permission_warning],
     Returned (GITHUB_SHA env, None)) /\
  exists t2 id t3,
    obtain_check_run env (GITHUB_SHA env) = (t2, Returned id) /\
    run env
    = (([octokit_graphql n; console_log permission_warning;
         core_debug ("Commit: " ++ GITHUB_SHA env)%string] ++ t2 ++
        cli_executeOnFiles ["src"] :: t3)%list,
       Returned tt) /\
    lint_calls (trace (run env)) = [["src"]].
Proof.
  intros Hn Hnz He.
  assert (Hsel : select_files env
                 = ([octokit_graphql n; console_log permission_warning],
                    Returned (GITHUB_SHA env, None))).
  { unfold select_files. rewrite Hn. simpl.
    unfold JS.truthy_number. apply Z.eqb_neq in Hnz. rewrite Hnz. simpl.
    unfold call, try_catch, bind. rewrite He. reflexivity. }
  split; [exact Hsel|].
  destruct (run_shape env _ _ _ Hsel) as (t2 & id & t3 & Hid & _ & Hrun & Hq).
  assert (Harg : JS.or_array (lint_argument env None) ["src"] = ["src"]).
  { unfold lint_argument.
    destruct (JS.truthy_string (getInput env "lint-all")); reflexivity. }
  rewrite Harg in Hrun, Hq.
  exists t2, id, t3. split; [exact Hid|]. split; [exact Hrun | exact Hq].
Qed.

(** C5 on a pull-request run whose query is refused. *)
Lemma query_failure_falls_back_witness :
  select_files Samples.env_query_refused
  = ([octokit_graphql 17; console_log permission_warning],
     Returned ("deadbeef", None)) /\
  result (run Samples.env_query_refused) = Returned tt /\
  lint_calls (trace (run Samples.env_query_refused)) = [["src"]].
Proof.
  destruct (query_failure_falls_back Samples.env_query_refused 17
              "Resource not accessible by integration" eq_refl
              ltac:(discriminate) eq_refl)
    as (Hsel & t2 & id & t3 & _ & Hrun & Hq).
  split; [exact Hsel|]. split; [|exact Hq].
  rewrite Hrun. reflexivity.
Defined.

(** C6. When the engine throws and a check run with a truthy id was
    obtained, the run calls the update with that id, conclusion [failure]
    and no output, logs a warning if that call is refused, signals failure
    with the thrown error's message, and completes. *)
Theorem engine_failure_marks_check_failed (env : Env) (t1 t2 : list event)
  (currentSha : string) (lintFiles : option (list string)) (id : Z)
  (e : string) :
  select_files env = (t1, Returned (currentSha, lintFiles)) ->
  obtain_check_run env currentSha = (t2, Returned (Some id)) ->
  id <> 0 ->
  executeOnFiles env (JS.or_array (lint_argument env lintFiles) ["src"])
  = Thrown e ->
  exists w,
    (w = [] \/ w = [console_log permission_warning]) /\
    run env
    = ((t1 ++ core_debug ("Commit: " ++ currentSha)%string :: t2 ++
        [cli_executeOnFiles
           (JS.or_array (lint_argument env lintFiles) ["src"]);
         octokit_checks_update id "failure" None] ++ w ++
        [core_setFailed e])%list,
       Returned tt).
Proof.
  intros Hsel Hid Hnz He.
  destruct (lint_and_report_thrown env (Some id) lintFiles e He)
    as (t & Ht & Hrep).
  destruct (update_check_run_shape env (Some id) "failure" None)
    as (t' & Ht' & _ & _ & Hupd).
  assert (t' = t) by congruence. subst t'.
  destruct (Hupd id eq_refl Hnz) as (w & -> & Hw).
  exists w. split; [exact Hw|].
  unfold run, bind at 1. rewrite Hsel. simpl fst; simpl snd.
  unfold emit, bind. rewrite Hid, Hrep. reflexivity.
Qed.

(** C6 on a push run whose lint step throws. *)
Lemma engine_failure_marks_check_failed_witness :
  exists w,
    (w = [] \/ w = [console_log permission_warning]) /\
    run Samples.env_engine_throws
    = (([octokit_repos_getCommit "deadbeef"] ++
        core_debug "Commit: deadbeef" ::
        [octokit_checks_create "ESLint" "deadbeef" "in_progress"] ++
        [cli_executeOnFiles ["src/a.ts"];
         octokit_checks_update 42 "failure" None] ++ w ++
        [core_setFailed "No files matching 'src/a.ts' were found."])%list,
       Returned tt).
Proof.
  exact (engine_failure_marks_check_failed Samples.env_engine_throws
           [octokit_repos_getCommit "deadbeef"]
           [octokit_checks_create "ESLint" "deadbeef" "in_progress"]
           "deadbeef" (Some ["src/a.ts"]) 42
           "No files matching 'src/a.ts' were found."
           eq_refl eq_refl ltac:(discriminate) eq_refl).
Defined.

(** C9. With the [lint-all] input empty, the linter is called once, on the
    selected list when there is one, also when that list is empty, and on
    [src] only when no list was selected. *)
Theorem empty_selection_is_linted_as_given (env : Env) (t1 : list event)
  (currentSha : string) (lintFiles : option (list string)) :
  getInput env "lint-all" = "" ->
  select_files env = (t1, Returned (currentSha, lintFiles)) ->
  (lintFiles = Some [] -> lint_calls (trace (run env)) = [[]]) /\
  (forall l, lintFiles = Some l -> lint_calls (trace (run env)) = [l]) /\
  (lintFiles = None -> lint_calls (trace (run env)) = [["src"]]).
Proof.
  intros Hall Hsel.
  destruct (run_shape env _ _ _ Hsel) as (_ & _ & _ & _ & _ & _ & Hq).
  unfold lint_argument in Hq. rewrite Hall in Hq. simpl in Hq.
  repeat split; intros; subst lintFiles; exact Hq.
Qed.

(** C9 on a pull request none of whose files passes the filter. *)
Lemma empty_selection_is_linted_as_given_witness :
  select_files Samples.env_nothing_to_lint
  = ([octokit_graphql 17], Returned ("0123abc", Some [])) /\
  lint_calls (trace (run Samples.env_nothing_to_lint)) = [[]].
Proof.
  split; [reflexivity|].
  destruct (empty_selection_is_linted_as_given Samples.env_nothing_to_lint
              [octokit_graphql 17] "0123abc" (Some []) eq_refl eq_refl)
    as (Hempty & _ & _).
  exact (Hempty eq_refl).
Defined.

(** C10. The [lint-all] input is tested for being non-empty only: with any
    non-empty value, [false] included, the selected list is replaced by
    [null] and the linter is called on [src]; with the empty value the
    selected list is passed on. *)
Theorem lint_all_is_a_nonemptiness_test (env : Env) (t1 : list event)
  (currentSha : string) (lintFiles : option (list string)) :
  select_files env = (t1, Returned (currentSha, lintFiles)) ->
  (getInput env "lint-all" <> "" ->
   lint_argument env lintFiles = None /\
   lint_calls (trace (run env)) = [["src"]]) /\
  (getInput env "lint-all" = "false" ->
   lint_argument env lintFiles = None /\
   lint_calls (trace (run env)) = [["src"]]) /\
  (getInput env "lint-all" = "" ->
   lint_argument env lintFiles = lintFiles /\
   lint_calls (trace (run env)) = [JS.or_array lintFiles ["src"]]).
Proof.
  intros Hsel.
  destruct (run_shape env _ _ _ Hsel) as (_ & _ & _ & _ & _ & _ & Hq).
  assert (Hne : getInput env "lint-all" <> "" ->
                lint_argument env lintFiles = None /\
                lint_calls (trace (run env)) = [["src"]]).
  { intros Hv. unfold lint_argument in *.
    destruct (getInput env "lint-all") as [|c v]; [contradiction|].
    simpl in *. split; [reflexivity | exact Hq]. }
  split; [exact Hne|]. split.
  - intros Hv. apply Hne. rewrite Hv. discriminate.
  - intros Hv. unfold lint_argument in *. rewrite Hv in *. simpl in *.
    split; [reflexivity | exact Hq].
Qed.

(** C10 on a pull request with one selected file and [lint-all] set to
    [false], and with [lint-all] left empty. *)
Lemma lint_all_is_a_nonemptiness_test_witness :
  lint_calls (trace (run (Samples.env_lint_all "false"))) = [["src"]] /\
  lint_calls (trace (run (Samples.env_lint_all ""))) = [["a.ts"]].
Proof.
  split.
  - destruct (lint_all_is_a_nonemptiness_test (Samples.env_lint_all "false")
                [octokit_graphql 17] "0123abc" (Some ["a.ts"]) eq_refl)
      as (Hset & _ & _).
    apply Hset. simpl. discriminate.
  - destruct (lint_all_is_a_nonemptiness_test (Samples.env_lint_all "")
                [octokit_graphql 17] "0123abc" (Some ["a.ts"]) eq_refl)
      as (_ & _ & Hunset).
    apply Hunset. reflexivity.
Defined.

(** * Further properties of [lint] *)

(** The loops emit one annotation per message of the engine's report, none
    dropped or added, in the order files and messages were returned, and
    the text logged is the console strings of the same messages in the
    same order. *)
Theorem annotations_follow_engine_order (env : Env)
  (files : option (list string)) (r : ESLint.LintReport) :
  executeOnFiles env (JS.or_array files ["src"]) = Returned r ->
  exists rep text,
    lint env files
    = ([cli_executeOnFiles (JS.or_array files ["src"]); console_log text],
       Returned rep) /\
    Checks.annotations (Checks.output rep)
    = flat_map (annotations_of_result (GITHUB_WORKSPACE env))
        (ESLint.results r) /\
    List.length (Checks.annotations (Checks.output rep))
    = list_sum (map (fun res => List.length (ESLint.messages res))
                  (ESLint.results r)) /\
    text = JS.join (flat_map (console_of_result (GITHUB_WORKSPACE env))
                      (ESLint.results r)).
Proof.
  intros H. rewrite (lint_returned env files r H).
  eexists; eexists. split; [reflexivity|].
  unfold report_of; simpl. rewrite collect_flat_map; simpl.
  split; [reflexivity|]. split; [|reflexivity].
  rewrite length_flat_map. f_equal. apply map_ext.
  intros res. unfold annotations_of_result. apply length_map.
Qed.

Lemma annotations_follow_engine_order_witness :
  exists rep text,
    lint Samples.env_query_refused None
    = ([cli_executeOnFiles ["src"]; console_log text], Returned rep) /\
    List.length (Checks.annotations (Checks.output rep)) = 3%nat.
Proof.
  destruct (annotations_follow_engine_order Samples.env_query_refused None
              Samples.report_dirty eq_refl)
    as (rep & text & Hl & _ & Hlen & _).
  exists rep, text. split; [exact Hl | exact Hlen].
Defined.

(** When no file has a message, the report carries no annotation, and
    [lint] still logs once, the empty text. *)
Theorem clean_results_give_no_annotation (env : Env)
  (files : option (list string)) (r : ESLint.LintReport) :
  executeOnFiles env (JS.or_array files ["src"]) = Returned r ->
  (forall res, In res (ESLint.results r) -> ESLint.messages res = []) ->
  exists rep,
    lint env files
    = ([cli_executeOnFiles (JS.or_array files ["src"]); console_log ""],
       Returned rep) /\
    Checks.annotations (Checks.output rep) = [].
Proof.
  intros H Hclean. rewrite (lint_returned env files r H).
  assert (Hc : collect (GITHUB_WORKSPACE env) (ESLint.results r) = ([], [])).
  { rewrite collect_flat_map.
    generalize Hclean. generalize (ESLint.results r).
    induction l as [|res l IH]; intros Hl; [reflexivity|].
    simpl. unfold annotations_of_result at 1, console_of_result at 1.
    rewrite (Hl res (or_introl eq_refl)). simpl.
    apply IH. intros res' Hres'. apply Hl. now right. }
  exists (report_of env r). unfold report_of. rewrite Hc. split; reflexivity.
Qed.

Lemma clean_results_give_no_annotation_witness :
  exists rep,
    lint Samples.env_spotless (Some ["src/a.ts"; "src/b.js"])
    = ([cli_executeOnFiles ["src/a.ts"; "src/b.js"]; console_log ""],
       Returned rep) /\
    Checks.annotations (Checks.output rep) = [].
Proof.
  apply (clean_results_give_no_annotation Samples.env_spotless
           (Some ["src/a.ts"; "src/b.js"]) Samples.report_spotless eq_refl).
  intros res [<-|[<-|[]]]; reflexivity.
Defined.

(** An [endLine] or [endColumn] of 0 is falsy and is replaced like an
    absent one; any other value is kept. *)
Theorem end_position_zero_is_absent (path : string)
  (msg : ESLint.LintMessage) :
  (ESLint.endLine msg = Some 0 ->
   Checks.end_line (annotation_of path msg) = ESLint.line msg) /\
  (ESLint.endColumn msg = Some 0 ->
   Checks.end_column (annotation_of path msg) = ESLint.column msg) /\
  (forall n, ESLint.endLine msg = Some n -> n <> 0 ->
     Checks.end_line (annotation_of path msg) = n) /\
  (forall n, ESLint.endColumn msg = Some n -> n <> 0 ->
     Checks.end_column (annotation_of path msg) = n).
Proof.
  unfold annotation_of; simpl.
  split; [|split; [|split]].
  - intros ->. reflexivity.
  - intros ->. reflexivity.
  - intros n -> Hn. simpl. unfold JS.truthy_number.
    apply Z.eqb_neq in Hn. now rewrite Hn.
  - intros n -> Hn. simpl. unfold JS.truthy_number.
    apply Z.eqb_neq in Hn. now rewrite Hn.
Qed.

Lemma end_position_zero_is_absent_witness :
  Checks.end_line (annotation_of "src/a.ts" Samples.msg_falsy) = 5 /\
  Checks.end_column (annotation_of "src/a.ts" Samples.msg_falsy) = 8 /\
  Checks.end_line (annotation_of "src/a.ts" Samples.msg_error) = 4 /\
  Checks.end_column (annotation_of "src/a.ts" Samples.msg_error) = 9.
Proof.
  destruct (end_position_zero_is_absent "src/a.ts" Samples.msg_falsy)
    as (Hl & Hc & _ & _).
  destruct (end_position_zero_is_absent "src/a.ts" Samples.msg_error)
    as (_ & _ & Hl' & Hc').
  split; [exact (Hl eq_refl)|]. split; [exact (Hc eq_refl)|].
  split.
  - apply (Hl' 4 eq_refl). discriminate.
  - apply (Hc' 9 eq_refl). discriminate.
Defined.

(** The annotation's title is the rule id and its message ends with the
    rule's documentation link exactly when the rule id is a non-empty
    string; a [null] or empty rule id gives the title [ESLint] and the
    message unchanged. *)
Theorem title_and_link_by_rule (path : string) (msg : ESLint.LintMessage) :
  (forall rule, ESLint.ruleId msg = Some rule -> rule <> "" ->
     Checks.title (annotation_of path msg) = rule /\
     Checks.message (annotation_of path msg)
     = (ESLint.message msg ++ nl ++ "https://eslint.org/docs/rules/" ++ rule)%string) /\
  (ESLint.ruleId msg = None \/ ESLint.ruleId msg = Some "" ->
   Checks.title (annotation_of path msg) = "ESLint" /\
   Checks.message (annotation_of path msg) = ESLint.message msg).
Proof.
  unfold annotation_of; simpl. split.
  - intros rule -> Hrule. simpl.
    destruct rule as [|c rule]; [contradiction|]. split; reflexivity.
  - intros [-> | ->]; simpl; rewrite append_empty_r; split; reflexivity.
Qed.

Lemma title_and_link_by_rule_witness :
  (Checks.title (annotation_of "src/a.ts" Samples.msg_warning) = "semi" /\
   Checks.message (annotation_of "src/a.ts" Samples.msg_warning)
   = ("Missing semicolon" ++ nl ++ "https://eslint.org/docs/rules/semi")%string) /\
  (Checks.title (annotation_of "src/a.ts" Samples.msg_falsy) = "ESLint" /\
   Checks.message (annotation_of "src/a.ts" Samples.msg_falsy) = "odd").
Proof.
  destruct (title_and_link_by_rule "src/a.ts" Samples.msg_warning) as (H & _).
  destruct (title_and_link_by_rule "src/a.ts" Samples.msg_falsy) as (_ & H').
  split.
  - apply (H "semi" eq_refl). discriminate.
  - apply H'. right. reflexivity.
Defined.

(** A severity outside 0, 1 and 2 reads past both tables: the annotation
    has no level and the console line shows [undefined]. *)
Theorem severity_out_of_range (path : string) (msg : ESLint.LintMessage) :
  ESLint.severity msg < 0 \/ 2 < ESLint.severity msg ->
  Checks.annotation_level (annotation_of path msg) = None /\
  consoleLevel_of msg = None /\
  JS.startsWith "##[undefined]  " (console_line msg) = true.
Proof.
  intros Hs.
  assert (Hidx : forall (tbl : list (option string)),
            List.length tbl = 3%nat -> JS.index tbl (ESLint.severity msg) = None).
  { intros tbl Hlen. unfold JS.index. rewrite Hlen.
    destruct (0 <=? ESLint.severity msg) eqn:E0; [|reflexivity].
    destruct (ESLint.severity msg <? Z.of_nat 3) eqn:E3; [|reflexivity].
    apply Z.leb_le in E0. apply Z.ltb_lt in E3. lia. }
  unfold console_line, consoleLevel_of, annotation_of; simpl.
  rewrite !Hidx by reflexivity. repeat split.
Qed.

Lemma severity_out_of_range_witness :
  Checks.annotation_level (annotation_of "src/a.ts" Samples.msg_falsy) = None /\
  consoleLevel_of Samples.msg_falsy = None /\
  JS.startsWith "##[undefined]  " (console_line Samples.msg_falsy) = true.
Proof.
  apply (severity_out_of_range "src/a.ts" Samples.msg_falsy).
  right. simpl. lia.
Defined.



(** * Further properties of [run] *)

Section RunPhases.

Variable env : Env.

Lemma failure_signals_app (t t' : list event) :
  failure_signals (t ++ t') = (failure_signals t ++ failure_signals t')%list.
Proof.
  induction t as [|e t IH]; [reflexivity|].
  destruct e; simpl; now rewrite IH.
Qed.

Lemma check_updates_app (t t' : list event) :
  check_updates (t ++ t') = (check_updates t ++ check_updates t')%list.
Proof.
  induction t as [|e t IH]; [reflexivity|].
  destruct e; simpl; now rewrite IH.
Qed.

(** File selection either returns, having signalled and updated nothing,
    or stops on a pull request without commit, right after the query. *)
Lemma select_files_cases :
  (exists t1 currentSha lintFiles,
     select_files env = (t1, Returned (currentSha, lintFiles)) /\
     failure_signals t1 = [] /\ check_updates t1 = []) \/
  (exists n pr e,
     issue_number env = Some n /\ n <> 0 /\
     graphql env n = Returned pr /\ Files.commits_nodes pr = [] /\
     select_files env = ([octokit_graphql n], Thrown e)).
Proof.
  unfold select_files, call, try_catch, bind, emit, ret, throw.
  destruct (issue_number env) as [n|] eqn:En; simpl.
  - unfold JS.truthy_number. destruct (n =? 0) eqn:E0; simpl.
    + destruct (getCommit env _); simpl; left; eauto 10.
    + destruct (graphql env n) as [pr|e] eqn:Eg; simpl.
      * destruct (Files.commits_nodes pr) as [|oid rest] eqn:Ec; simpl.
        -- right. apply Z.eqb_neq in E0. eauto 10.
        -- left; eauto 10.
      * left; eauto 10.
  - destruct (getCommit env _); simpl; left; eauto 10.
Qed.

(** Looking up or creating the check run signals and updates nothing. *)
Lemma obtain_check_run_silent (currentSha : string) :
  failure_signals (trace (obtain_check_run env currentSha)) = [] /\
  check_updates (trace (obtain_check_run env currentSha)) = [].
Proof.
  unfold obtain_check_run, call, try_catch, bind, emit, ret.
  destruct (JS.truthy_string (getInput env "job-name")); simpl.
  - destruct (listForRef env currentSha) as [checks|e]; simpl.
    + destruct (JS.find _ checks) as [check|]; simpl.
      * destruct (JS.truthy_number (Checks.id check)); simpl; auto.
        destruct (create env currentSha); simpl; auto.
      * destruct (create env currentSha); simpl; auto.
    + destruct (create env currentSha); simpl; auto.
  - destruct (create env currentSha); simpl; auto.
Qed.

(** The guarded update signals nothing, and updates once or not at all. *)
Lemma update_check_run_updates (id : option Z) (c : string)
  (o : option Checks.Output) :
  failure_signals (trace (update_check_run env id c o)) = [] /\
  check_updates (trace (update_check_run env id c o))
  = match id with
    | Some i => if i =? 0 then [] else [(i, c, o)]
    | None => []
    end.
Proof.
  unfold update_check_run, JS.truthy_number.
  destruct id as [i|]; [|auto].
  destruct (i =? 0); simpl; [auto|].
  unfold call, try_catch, emit.
  destruct (update env i c o) as [[]|e]; simpl; auto.
Qed.

End RunPhases.

(** The run ends with an uncaught error in one case only: the pull-request
    query answered, with an empty [commits.nodes]. It then stops right
    after the query: no check run, no lint, no failure signal. In every
    other case it completes. *)
Theorem run_aborts_only_without_commit (env : Env) :
  ((exists e, result (run env) = Thrown e) <->
   (exists n pr,
      issue_number env = Some n /\ n <> 0 /\
      graphql env n = Returned pr /\ Files.commits_nodes pr = [])) /\
  ((exists e, result (run env) = Thrown e) ->
   exists n, trace (run env) = [octokit_graphql n]) /\
  (~ (exists e, result (run env) = Thrown e) ->
   result (run env) = Returned tt).
Proof.
  destruct (select_files_cases env)
    as [(t1 & sha & lf & Hsel & _) | (n & pr & e & Hn & Hnz & Hg & Hc & Hsel)].
  - destruct (run_shape env _ _ _ Hsel) as (t2 & id & t3 & _ & _ & Hrun & _).
    rewrite Hrun. unfold result, trace; simpl.
    split; [split|split].
    + intros (e & He). discriminate.
    + intros (n & pr & Hn & Hnz & Hg & Hc). exfalso.
      revert Hsel. unfold select_files, call, try_catch, bind, throw.
      rewrite Hn. simpl. unfold JS.truthy_number.
      apply Z.eqb_neq in Hnz. rewrite Hnz. simpl. rewrite Hg. simpl.
      rewrite Hc. discriminate.
    + intros (e & He). discriminate.
    + reflexivity.
  - assert (Hrun : run env = ([octokit_graphql n], Thrown e)).
    { unfold run, bind at 1. rewrite Hsel. reflexivity. }
    rewrite Hrun. unfold result, trace; simpl.
    split; [split|split].
    + intros _. exists n, pr. auto.
    + intros _. now exists e.
    + intros _. now exists n.
    + intros H. exfalso. apply H. now exists e.
Qed.

Lemma run_aborts_only_without_commit_witness :
  trace (run Samples.env_no_commit) = [octokit_graphql 17] /\
  result (run Samples.env_pull_request) = Returned tt.
Proof.
  destruct (run_aborts_only_without_commit Samples.env_no_commit)
    as ([_ Hthrows] & Htrace & _).
  destruct (run_aborts_only_without_commit Samples.env_pull_request)
    as (_ & _ & Hok).
  assert (Hex : exists n pr,
            issue_number Samples.env_no_commit = Some n /\ n <> 0 /\
            graphql Samples.env_no_commit n = Returned pr /\
            Files.commits_nodes pr = []).
  { exists 17. eexists. split; [reflexivity|]. split; [discriminate|].
    split; reflexivity. }
  split.
  - destruct (Htrace (Hthrows Hex)) as (n & Hn).
    rewrite Hn. vm_compute in Hn. symmetry. exact Hn.
  - apply Hok. intros (e & He). vm_compute in He. discriminate.
Defined.

(** Once the files are selected, the run signals failure exactly when the
    lint step throws, with the error's message, or returns an
    [errorCount] above 0, with the summary; it signals once. Whether the
    GitHub calls succeed plays no part. *)
Theorem failure_signal_comes_from_lint_only (env : Env) (t1 : list event)
  (currentSha : string) (lintFiles : option (list string)) :
  select_files env = (t1, Returned (currentSha, lintFiles)) ->
  failure_signals (trace (run env))
  = match executeOnFiles env
            (JS.or_array (lint_argument env lintFiles) ["src"]) with
    | Returned r =>
        if ESLint.errorCount r >? 0
        then [summary_of (ESLint.errorCount r) (ESLint.warningCount r)]
        else []
    | Thrown e => [e]
    end.
Proof.
  intros Hsel.
  destruct (select_files_cases env)
    as [(t1' & sha' & lf' & Hsel' & Hf1 & _) | (n & pr & e & _ & _ & _ & _ & Hsel')];
    [|congruence].
  assert (t1' = t1) by congruence. subst t1'.
  destruct (run_shape env _ _ _ Hsel) as (t2 & id & t3 & Hid & Hrep & Hrun & _).
  destruct (obtain_check_run_silent env currentSha) as (Hf2 & _).
  rewrite Hid in Hf2. unfold trace in Hf2; simpl in Hf2.
  rewrite Hrun. unfold trace; simpl fst.
  rewrite failure_signals_app, Hf1. simpl.
  rewrite failure_signals_app, Hf2. simpl.
  destruct (executeOnFiles env
              (JS.or_array (lint_argument env lintFiles) ["src"]))
    as [r|e] eqn:E.
  - destruct (lint_and_report_returned env id lintFiles r E) as (t & Ht & Hrep').
    rewrite Hrep' in Hrep. injection Hrep as <-.
    destruct (update_check_run_updates env id
                (Checks.conclusion (report_of env r))
                (Some (Checks.output (report_of env r)))) as (Hfu & _).
    rewrite Ht in Hfu. unfold trace in Hfu; simpl in Hfu.
    simpl. rewrite failure_signals_app, Hfu. simpl.
    destruct (ESLint.errorCount r >? 0); reflexivity.
  - destruct (lint_and_report_thrown env id lintFiles e E) as (t & Ht & Hrep').
    rewrite Hrep' in Hrep. injection Hrep as <-.
    destruct (update_check_run_updates env id "failure" None) as (Hfu & _).
    rewrite Ht in Hfu. unfold trace in Hfu; simpl in Hfu.
    rewrite failure_signals_app, Hfu. reflexivity.
Qed.

Lemma failure_signal_comes_from_lint_only_witness :
  failure_signals (trace (run Samples.env_no_checks))
  = ["1 error(s), 1 warning(s) found"] /\
  failure_signals (trace (run Samples.env_engine_throws))
  = ["No files matching 'src/a.ts' were found."] /\
  failure_signals (trace (run Samples.env_pull_request)) = [].
Proof.
  split; [|split].
  - exact (failure_signal_comes_from_lint_only Samples.env_no_checks
             [octokit_repos_getCommit "deadbeef";
              console_log permission_warning]
             "deadbeef" None eq_refl).
  - exact (failure_signal_comes_from_lint_only Samples.env_engine_throws
             [octokit_repos_getCommit "deadbeef"]
             "deadbeef" (Some ["src/a.ts"]) eq_refl).
  - exact (failure_signal_comes_from_lint_only Samples.env_pull_request
             [octokit_graphql 17] "0123abc" (Some ["a.ts"]) eq_refl).
Defined.

(** The run calls [checks.update] at most once: not at all when no truthy
    check-run id was obtained, and otherwise once, for that id, with the
    report's conclusion and output when the engine returned and with
    [failure] and no output when it threw. *)
Theorem check_run_updated_at_most_once (env : Env) (t1 t2 : list event)
  (currentSha : string) (lintFiles : option (list string)) (id : option Z) :
  select_files env = (t1, Returned (currentSha, lintFiles)) ->
  obtain_check_run env currentSha = (t2, Returned id) ->
  check_updates (trace (run env))
  = match id with
    | Some i =>
        if i =? 0 then []
        else match executeOnFiles env
                     (JS.or_array (lint_argument env lintFiles) ["src"]) with
             | Returned r =>
                 [(i, Checks.conclusion (report_of env r),
                   Some (Checks.output (report_of env r)))]
             | Thrown _ => [(i, "failure", None)]
             end
    | None => []
    end.
Proof.
  intros Hsel Hid.
  destruct (select_files_cases env)
    as [(t1' & sha' & lf' & Hsel' & _ & Hu1) | (n & pr & e & _ & _ & _ & _ & Hsel')];
    [|congruence].
  assert (t1' = t1) by congruence. subst t1'.
  destruct (run_shape env _ _ _ Hsel) as (t2' & id' & t3 & Hid' & Hrep & Hrun & _).
  assert (t2' = t2 /\ id' = id) as [-> ->] by (split; congruence).
  destruct (obtain_check_run_silent env currentSha) as (_ & Hu2).
  rewrite Hid in Hu2. unfold trace in Hu2; simpl in Hu2.
  rewrite Hrun. unfold trace; simpl fst.
  rewrite check_updates_app, Hu1. simpl.
  rewrite check_updates_app, Hu2. simpl.
  destruct (executeOnFiles env
              (JS.or_array (lint_argument env lintFiles) ["src"]))
    as [r|e] eqn:E.
  - destruct (lint_and_report_returned env id lintFiles r E) as (t & Ht & Hrep').
    rewrite Hrep' in Hrep. injection Hrep as <-.
    destruct (update_check_run_updates env id
                (Checks.conclusion (report_of env r))
                (Some (Checks.output (report_of env r)))) as (_ & Huu).
    rewrite Ht in Huu. unfold trace in Huu; simpl in Huu.
    simpl. rewrite check_updates_app, Huu. simpl.
    assert (Htail : check_updates
              (if ESLint.errorCount r >? 0
               then [core_setFailed
                       (Checks.summary (Checks.output (report_of env r)))]
               else []) = []) by (destruct (ESLint.errorCount r >? 0); reflexivity).
    simpl in Htail. rewrite Htail, app_nil_r.
    destruct id as [i|]; [destruct (i =? 0)|]; reflexivity.
  - destruct (lint_and_report_thrown env id lintFiles e E) as (t & Ht & Hrep').
    rewrite Hrep' in Hrep. injection Hrep as <-.
    destruct (update_check_run_updates env id "failure" None) as (_ & Huu).
    rewrite Ht in Huu. unfold trace in Huu; simpl in Huu.
    rewrite check_updates_app, Huu. simpl. rewrite app_nil_r.
    destruct id as [i|]; [destruct (i =? 0)|]; reflexivity.
Qed.

Lemma check_run_updated_at_most_once_witness :
  check_updates (trace (run Samples.env_no_checks)) = [] /\
  check_updates (trace (run Samples.env_engine_throws))
  = [(42, "failure", None)].
Proof.
  split.
  - exact (check_run_updated_at_most_once Samples.env_no_checks
             [octokit_repos_getCommit "deadbeef";
              console_log permission_warning]
             [octokit_checks_create "ESLint" "deadbeef" "in_progress";
              console_log permission_warning]
             "deadbeef" None None eq_refl eq_refl).
  - exact (check_run_updated_at_most_once Samples.env_engine_throws
             [octokit_repos_getCommit "deadbeef"]
             [octokit_checks_create "ESLint" "deadbeef" "in_progress"]
             "deadbeef" (Some ["src/a.ts"]) (Some 42) eq_refl eq_refl).
Defined.

(** Without a [job-name] input the run never lists the check runs of the
    commit: it creates one named [ESLint] on that commit and keeps the id
    returned, or logs a warning and goes on without id when the creation
    is refused. *)
Theorem no_job_name_creates_check_run (env : Env) (currentSha : string) :
  getInput env "job-name" = "" ->
  (forall i, create env currentSha = Returned i ->
     obtain_check_run env currentSha
     = ([octokit_checks_create "ESLint" currentSha "in_progress"],
        Returned (Some i))) /\
  (forall e, create env currentSha = Thrown e ->
     obtain_check_run env currentSha
     = ([octokit_checks_create "ESLint" currentSha "in_progress";
         console_log permission_warning],
        Returned None)).
Proof.
  intros Hjob. unfold obtain_check_run, call, try_catch, bind, emit, ret.
  rewrite Hjob. simpl.
  split; intros x Hx; rewrite Hx; reflexivity.
Qed.

Lemma no_job_name_creates_check_run_witness :
  obtain_check_run Samples.env_pull_request "0123abc"
  = ([octokit_checks_create "ESLint" "0123abc" "in_progress"],
     Returned (Some 42)) /\
  obtain_check_run Samples.env_no_checks "deadbeef"
  = ([octokit_checks_create "ESLint" "deadbeef" "in_progress";
      console_log permission_warning],
     Returned None).
Proof.
  destruct (no_job_name_creates_check_run Samples.env_pull_request "0123abc"
              eq_refl) as (Hok & _).
  destruct (no_job_name_creates_check_run Samples.env_no_checks "deadbeef"
              eq_refl) as (_ & Hko).
  split.
  - exact (Hok 42 eq_refl).
  - exact (Hko "Resource not accessible by integration" eq_refl).
Defined.

(** With a [job-name] input, the first in-progress check run whose name
    equals it up to letter case is reused: when its id is truthy, no check
    run is created. *)
Theorem job_name_reuses_first_match (env : Env) (currentSha : string)
  (before after : list Checks.CheckRun) (check : Checks.CheckRun) :
  getInput env "job-name" <> "" ->
  listForRef env currentSha = Returned (before ++ check :: after)%list ->
  (forall c, In c before ->
     JS.toLowerCase (Checks.name c)
     <> JS.toLowerCase (getInput env "job-name")) ->
  JS.toLowerCase (Checks.name check)
  = JS.toLowerCase (getInput env "job-name") ->
  Checks.id check <> 0 ->
  obtain_check_run env currentSha
  = ([octokit_checks_listForRef "in_progress" currentSha],
     Returned (Some (Checks.id check))).
Proof.
  intros Hjob Hlist Hbefore Hname Hid.
  assert (Hfind : JS.find
            (fun c => String.eqb (JS.toLowerCase (Checks.name c))
                        (JS.toLowerCase (getInput env "job-name")))
            (before ++ check :: after)%list = Some check).
  { unfold JS.find. clear Hlist.
    induction before as [|c before IH]; simpl.
    - apply String.eqb_eq in Hname. now rewrite Hname.
    - assert (Hc : String.eqb (JS.toLowerCase (Checks.name c))
                     (JS.toLowerCase (getInput env "job-name")) = false).
      { apply String.eqb_neq. apply Hbefore. now left. }
      rewrite Hc. apply IH. intros c' Hc'. apply Hbefore. now right. }
  unfold obtain_check_run, call, try_catch, bind, emit, ret.
  destruct (getInput env "job-name") as [|a job] eqn:Ejob; [contradiction|].
  simpl JS.truthy_string. cbv iota. rewrite Hlist. cbv beta iota.
  rewrite Hfind. simpl. unfold JS.truthy_number.
  apply Z.eqb_neq in Hid. rewrite Hid. reflexivity.
Qed.

Lemma job_name_reuses_first_match_witness :
  obtain_check_run Samples.env_reuse "deadbeef"
  = ([octokit_checks_listForRef "in_progress" "deadbeef"],
     Returned (Some 7)).
Proof.
  apply (job_name_reuses_first_match Samples.env_reuse "deadbeef"
           [ {| Checks.name := "build"; Checks.id := 5 |} ]
           [ {| Checks.name := "lint"; Checks.id := 9 |} ]
           {| Checks.name := "Lint"; Checks.id := 7 |}).
  - simpl. discriminate.
  - reflexivity.
  - intros c [<-|[]]. simpl. discriminate.
  - reflexivity.
  - simpl. discriminate.
Defined.

(** On a push event the commit reported on is always [GITHUB_SHA]. When
    the commit query is refused the run lints [src]; when it answers and
    [lint-all] is empty the run lints the files selected from the answer,
    in both cases once. *)
Theorem push_event_lints_commit_files (env : Env) :
  JS.truthy_opt_number (issue_number env) = false ->
  (exists t lintFiles,
     select_files env
     = (octokit_repos_getCommit (GITHUB_SHA env) :: t,
        Returned (GITHUB_SHA env, lintFiles))) /\
  (forall e, getCommit env (GITHUB_SHA env) = Thrown e ->
     lint_calls (trace (run env)) = [["src"]]) /\
  (forall files, getCommit env (GITHUB_SHA env) = Returned files ->
     getInput env "lint-all" = "" ->
     lint_calls (trace (run env)) = [select_commit_files files]).
Proof.
  intros Hpush.
  assert (Hsel : select_files env
            = match getCommit env (GITHUB_SHA env) with
              | Returned files =>
                  ([octokit_repos_getCommit (GITHUB_SHA env)],
                   Returned (GITHUB_SHA env, Some (select_commit_files files)))
              | Thrown _ =>
                  ([octokit_repos_getCommit (GITHUB_SHA env);
                    console_log permission_warning],
                   Returned (GITHUB_SHA env, None))
              end).
  { unfold select_files. rewrite Hpush.
    unfold call, try_catch, bind, emit, ret.
    destruct (getCommit env (GITHUB_SHA env)); reflexivity. }
  split; [|split].
  - rewrite Hsel. destruct (getCommit env (GITHUB_SHA env)); eauto.
  - intros e He. rewrite He in Hsel.
    destruct (run_shape env _ _ _ Hsel) as (_ & _ & _ & _ & _ & _ & Hq).
    rewrite Hq. unfold lint_argument.
    destruct (JS.truthy_string (getInput env "lint-all")); reflexivity.
  - intros files Hfiles Hall. rewrite Hfiles in Hsel.
    destruct (run_shape env _ _ _ Hsel) as (_ & _ & _ & _ & _ & _ & Hq).
    rewrite Hq. unfold lint_argument. rewrite Hall. reflexivity.
Qed.

Lemma push_event_lints_commit_files_witness :
  lint_calls (trace (run Samples.env_no_checks)) = [["src"]] /\
  lint_calls (trace (run Samples.env_spotless)) = [["src/a.ts"; "src/b.js"]].
Proof.
  destruct (push_event_lints_commit_files Samples.env_no_checks eq_refl)
    as (_ & Hko & _).
  destruct (push_event_lints_commit_files Samples.env_spotless eq_refl)
    as (_ & _ & Hok).
  split.
  - exact (Hko "Resource not accessible by integration" eq_refl).
  - exact (Hok _ eq_refl eq_refl).
Defined.

(** On a pull-request event whose query answers, the commit reported on is
    the pull request's last commit, not [GITHUB_SHA]: the check run is
    looked up or created on it, and with [lint-all] empty the files linted
    are the ones selected from the pull request. *)
Theorem pull_request_reports_on_head_commit (env : Env) (n : Z)
  (pr : Files.PullRequest) (oid : string) (others : list string) :
  issue_number env = Some n -> n <> 0 ->
  graphql env n = Returned pr ->
  Files.commits_nodes pr = oid :: others ->
  select_files env
  = ([octokit_graphql n],
     Returned (oid, Some (select_pull_request_files (Files.files_nodes pr)))) /\
  (exists t2 id t3,
     obtain_check_run env oid = (t2, Returned id) /\
     run env
     = ((octokit_graphql n :: core_debug ("Commit: " ++ oid)%string :: t2 ++
         cli_executeOnFiles
           (JS.or_array
              (lint_argument env
                 (Some (select_pull_request_files (Files.files_nodes pr))))
              ["src"]) :: t3)%list,
        Returned tt)) /\
  (getInput env "lint-all" = "" ->
   lint_calls (trace (run env))
   = [select_pull_request_files (Files.files_nodes pr)]).
Proof.
  intros Hn Hnz Hg Hc.
  assert (Hsel : select_files env
            = ([octokit_graphql n],
               Returned (oid, Some (select_pull_request_files
                                      (Files.files_nodes pr))))).
  { unfold select_files. rewrite Hn. simpl. unfold JS.truthy_number.
    apply Z.eqb_neq in Hnz. rewrite Hnz. simpl.
    unfold call, try_catch, bind, ret. rewrite Hg. simpl. rewrite Hc.
    reflexivity. }
  split; [exact Hsel|].
  destruct (run_shape env _ _ _ Hsel) as (t2 & id & t3 & Hid & _ & Hrun & Hq).
  split.
  - exists t2, id, t3. split; [exact Hid | exact Hrun].
  - intros Hall. rewrite Hq. unfold lint_argument. rewrite Hall. reflexivity.
Qed.

Lemma pull_request_reports_on_head_commit_witness :
  select_files Samples.env_pull_request
  = ([octokit_graphql 17], Returned ("0123abc", Some ["a.ts"])) /\
  lint_calls (trace (run Samples.env_pull_request)) = [["a.ts"]].
Proof.
  destruct (pull_request_reports_on_head_commit Samples.env_pull_request 17
              Samples.pull_request "0123abc" [] eq_refl ltac:(discriminate)
              eq_refl eq_refl) as (Hsel & _ & Hq).
  split; [exact Hsel | exact (Hq eq_refl)].
Defined.

(** * Further properties of the file selection *)

Section Extname.

Local Open Scope nat_scope.

Lemma length_append (a b : string) :
  String.length (a ++ b) = String.length a + String.length b.
Proof. induction a as [|c a IH]; simpl; [reflexivity | now rewrite IH]. Qed.

Lemma get_append_right (a b : string) (j : nat) :
  String.get (String.length a + j) (a ++ b) = String.get j b.
Proof. induction a as [|c a IH]; simpl; [reflexivity | exact IH]. Qed.

Lemma get_all_chars (p : ascii -> bool) (s : string) (j : nat) :
  all_chars p s = true -> j < String.length s ->
  exists c, String.get j s = Some c /\ p c = true.
Proof.
  revert j; induction s as [|a s IH]; intros j Hall Hj; simpl in *; [lia|].
  apply andb_true_iff in Hall as [Ha Hs].
  destruct j as [|j]; [now exists a|]. apply IH; [exact Hs | lia].
Qed.

Lemma substring_append_right (a b : string) :
  String.substring (String.length a) (String.length b) (a ++ b) = b.
Proof.
  induction a as [|c a IH]; simpl; [|exact IH].
  induction b as [|c b IH]; simpl; [reflexivity | now rewrite IH].
Qed.

Variable path : string.

(** Characters after the extension's dot: once the end is marked, plain
    characters change nothing while no dot has been seen. *)
Lemma scan_plain_region (lo n : nat) (st : Path.scan) :
  (forall j, j < n ->
     exists c, String.get (lo + j) path = Some c /\ plain_char c = true) ->
  Path.startDot st = (-1)%Z -> Path.end_ st <> (-1)%Z ->
  Path.scan_loop path (lo + n) st = Path.scan_loop path lo st.
Proof.
  intros Hplain Hdot Hend.
  induction n as [|n IH]; [now rewrite Nat.add_0_r|].
  rewrite Nat.add_succ_r. simpl.
  destruct (Hplain n (Nat.lt_succ_diag_r n)) as (c & -> & Hc).
  unfold plain_char in Hc. apply andb_true_iff in Hc as [Hs Hd].
  apply negb_true_iff in Hs, Hd. rewrite Hs.
  assert (Hsame : Path.scan_char c (Z.of_nat (lo + n)) st = st).
  { unfold Path.scan_char. apply Z.eqb_neq in Hend. rewrite Hend, Hd, Hdot.
    reflexivity. }
  rewrite Hsame. apply IH. intros j Hj. apply Hplain. lia.
Qed.

(** Characters before the extension's dot, up to a separator: the dot and
    the end stay, and the scan remembers that something precedes the dot. *)
Lemma scan_base_region (lo n : nat) (st : Path.scan) :
  (forall j, j < n ->
     exists c, String.get (lo + j) path = Some c /\ Path.is_slash c = false) ->
  Path.startDot st <> (-1)%Z -> Path.end_ st <> (-1)%Z ->
  exists st',
    Path.scan_loop path (lo + n) st = Path.scan_loop path lo st' /\
    Path.startDot st' = Path.startDot st /\
    Path.startPart st' = Path.startPart st /\
    Path.end_ st' = Path.end_ st /\
    Path.matchedSlash st' = Path.matchedSlash st /\
    (n = 0 /\ st' = st \/
     Path.preDotState st' = (-1)%Z \/ Path.preDotState st' = 1%Z).
Proof.
  revert st; induction n as [|n IH]; intros st Hreg Hdot Hend.
  - exists st. rewrite Nat.add_0_r. auto 10.
  - rewrite Nat.add_succ_r. simpl.
    destruct (Hreg n (Nat.lt_succ_diag_r n)) as (c & -> & Hs). rewrite Hs.
    set (st1 := Path.scan_char c (Z.of_nat (lo + n)) st).
    assert (H1 : Path.startDot st1 = Path.startDot st /\
                 Path.startPart st1 = Path.startPart st /\
                 Path.end_ st1 = Path.end_ st /\
                 Path.matchedSlash st1 = Path.matchedSlash st /\
                 (Path.preDotState st1 = (-1)%Z \/ Path.preDotState st1 = 1%Z)).
    { unfold st1, Path.scan_char.
      apply Z.eqb_neq in Hend, Hdot. rewrite Hend, Hdot. simpl.
      destruct (Path.is_dot c).
      - destruct (Path.preDotState st =? 1)%Z eqn:E1; simpl; auto 10.
        apply Z.eqb_eq in E1. auto 10.
      - simpl. auto 10. }
    destruct H1 as (Hd1 & Hp1 & He1 & Hm1 & Hpds1).
    destruct (IH st1) as (st' & Hloop & Hd & Hp & He & Hm & Hpds).
    + intros j Hj. apply Hreg. lia.
    + congruence.
    + congruence.
    + exists st'. split; [exact Hloop|].
      repeat split; try congruence.
      right. destruct Hpds as [[_ ->] | Hpds]; assumption.
Qed.

End Extname.

(** The scan on a file name [base.ext], alone or after a directory part
    that ends with a slash. *)
Lemma extname_scan_file_name (dir base ext : string) :
  (dir = "" \/ exists d, dir = (d ++ "/")%string) ->
  base <> "" -> all_chars (fun c => negb (Path.is_slash c)) base = true ->
  ext <> "" -> all_chars plain_char ext = true ->
  Path.extname (dir ++ base ++ "." ++ ext) = ("." ++ ext)%string.
Proof.
  intros Hdir Hbase Hbase_chars Hext Hext_chars.
  set (path := (dir ++ base ++ "." ++ ext)%string).
  set (b := String.length dir).
  set (d := (b + String.length base)%nat).
  assert (Hlen : String.length path = (d + 1 + String.length ext)%nat).
  { unfold path, d, b. rewrite !length_append. simpl. lia. }
  assert (Hget_ext : forall j, (j < String.length ext)%nat ->
            exists c, String.get (d + 1 + j) path = Some c /\
                      plain_char c = true).
  { intros j Hj. unfold path, d, b.
    rewrite <- !Nat.add_assoc, get_append_right, get_append_right.
    simpl. now apply get_all_chars. }
  assert (Hget_dot : String.get d path = Some "."%char).
  { unfold path, d, b. rewrite get_append_right.
    rewrite <- (Nat.add_0_r (String.length base)), get_append_right.
    reflexivity. }
  assert (Hget_base : forall j, (j < String.length base)%nat ->
            exists c, String.get (b + j) path = Some c /\
                      Path.is_slash c = false).
  { intros j Hj. unfold path, b. rewrite get_append_right.
    rewrite <- (String.append_correct1 base ("." ++ ext) j Hj).
    destruct (get_all_chars _ base j Hbase_chars Hj) as (c & Hc & Hs).
    exists c. split; [exact Hc | now apply negb_true_iff]. }
  (* the characters of the extension *)
  destruct (String.length ext) as [|n] eqn:En.
  { destruct ext; [contradiction | discriminate]. }
  assert (Hstep1 : exists st1,
            Path.scan_loop path (String.length path) Path.scan0
            = Path.scan_loop path (d + 1) st1 /\
            Path.startDot st1 = (-1)%Z /\ Path.startPart st1 = 0%Z /\
            Path.end_ st1 = Z.of_nat (String.length path) /\
            Path.matchedSlash st1 = false /\ Path.preDotState st1 = 0%Z).
  { rewrite Hlen, Nat.add_succ_r. simpl Path.scan_loop.
    destruct (Hget_ext n (Nat.lt_succ_diag_r n)) as (c & -> & Hc).
    pose proof Hc as Hc'. unfold plain_char in Hc'.
    apply andb_true_iff in Hc' as [Hs Hd]. apply negb_true_iff in Hs, Hd.
    rewrite Hs. unfold Path.scan_char. simpl. rewrite Hd. simpl.
    eexists. split.
    - apply scan_plain_region.
      + intros j Hj. apply Hget_ext. lia.
      + reflexivity.
      + simpl. lia.
    - simpl. repeat split. lia. }
  destruct Hstep1 as (st1 & Hloop1 & Hd1 & Hp1 & He1 & Hm1 & Hs1).
  (* the dot *)
  assert (Hstep2 : exists st2,
            Path.scan_loop path (d + 1) st1 = Path.scan_loop path d st2 /\
            Path.startDot st2 = Z.of_nat d /\ Path.startPart st2 = 0%Z /\
            Path.end_ st2 = Z.of_nat (String.length path) /\
            Path.matchedSlash st2 = false /\ Path.preDotState st2 = 0%Z).
  { rewrite Nat.add_1_r. simpl Path.scan_loop. rewrite Hget_dot.
    change (Path.is_slash "."%char) with false. cbv iota.
    eexists. split; [reflexivity|].
    unfold Path.scan_char. rewrite He1.
    assert (Hne : (Z.of_nat (String.length path) =? -1)%Z = false)
      by (apply Z.eqb_neq; lia).
    rewrite Hne. change (Path.is_dot "."%char) with true. cbv iota.
    rewrite Hd1. simpl. auto. }
  destruct Hstep2 as (st2 & Hloop2 & Hd2 & Hp2 & He2 & Hm2 & Hs2).
  (* the base name *)
  destruct (scan_base_region path b (String.length base) st2 Hget_base)
    as (st3 & Hloop3 & Hd3 & Hp3 & He3 & Hm3 & Hs3).
  { rewrite Hd2. lia. }
  { rewrite He2. lia. }
  fold d in Hloop3.
  assert (Hs3' : Path.preDotState st3 = (-1)%Z \/ Path.preDotState st3 = 1%Z).
  { destruct Hs3 as [[H0 _] | H]; [|exact H].
    destruct base; [contradiction | discriminate]. }
  (* the separator, or the start of the path *)
  assert (Hstep4 : exists st4,
            Path.scan_loop path b st3 = st4 /\
            Path.startDot st4 = Z.of_nat d /\
            Path.end_ st4 = Z.of_nat (String.length path) /\
            Path.preDotState st4 = Path.preDotState st3).
  { destruct Hdir as [Hdir | (dd & Hdir)].
    - exists st3. unfold b. rewrite Hdir. simpl. repeat split; congruence.
    - assert (Hb : b = S (String.length dd)).
      { unfold b. rewrite Hdir, length_append. simpl. lia. }
      assert (Hslash : String.get (String.length dd) path = Some "/"%char).
      { unfold path. rewrite Hdir.
        rewrite <- (Nat.add_0_r (String.length dd)).
        rewrite <- (String.append_correct1 (dd ++ "/") _ (String.length dd + 0)).
        - rewrite get_append_right. reflexivity.
        - rewrite length_append. simpl. lia. }
      rewrite Hb. simpl Path.scan_loop. rewrite Hslash.
      change (Path.is_slash "/"%char) with true. cbv iota.
      rewrite Hm3, Hm2. simpl.
      eexists. split; [reflexivity|]. simpl. repeat split; congruence. }
  destruct Hstep4 as (st4 & Hloop4 & Hd4 & He4 & Hs4).
  unfold Path.extname. fold path.
  rewrite Hloop1, Hloop2, Hloop3, Hloop4, Hd4, He4, Hs4.
  assert (C1 : (Z.of_nat d =? -1)%Z = false) by (apply Z.eqb_neq; lia).
  assert (C2 : (Z.of_nat (String.length path) =? -1)%Z = false)
    by (apply Z.eqb_neq; lia).
  assert (C3 : (Path.preDotState st3 =? 0)%Z = false)
    by (apply Z.eqb_neq; destruct Hs3'; lia).
  assert (C4 : (Z.of_nat d =? Z.of_nat (String.length path) - 1)%Z = false)
    by (apply Z.eqb_neq; lia).
  rewrite C1, C2, C3, C4. simpl orb. rewrite andb_false_r. simpl andb.
  cbv iota. unfold JS.slice. rewrite !Nat2Z.id.
  replace (String.length path - d)%nat with (String.length ("." ++ ext))
    by (simpl; lia).
  unfold path, d, b.
  replace (dir ++ base ++ "." ++ ext)%string
    with ((dir ++ base) ++ "." ++ ext)%string.
  - rewrite <- length_append. apply substring_append_right.
  - clear. generalize ("." ++ ext)%string as tail. intros tail.
    induction dir as [|c dir IH]; simpl; [reflexivity | now rewrite IH].
Qed.

(** A file name [base.ext], alone or after a directory part that ends
    with a slash, has extension [.ext] when [ext] is non-empty and free of
    dots and slashes and [base] is non-empty and free of slashes, dots
    inside [base] notwithstanding. The pull-request filter therefore keeps
    such a path exactly when [ext] is [ts] or [js] and the path does not
    contain [.d.ts]. *)
Theorem selection_by_file_name (dir base ext : string) :
  (dir = "" \/ exists d, dir = (d ++ "/")%string) ->
  base <> "" -> all_chars (fun c => negb (Path.is_slash c)) base = true ->
  ext <> "" -> all_chars plain_char ext = true ->
  Path.extname (dir ++ base ++ "." ++ ext) = ("." ++ ext)%string /\
  keep_file_node {| Files.path := (dir ++ base ++ "." ++ ext)%string |}
  = (String.eqb ext "ts" || String.eqb ext "js")
    && negb (JS.includes ".d.ts" (dir ++ base ++ "." ++ ext)).
Proof.
  intros Hdir Hbase Hbase_chars Hext Hext_chars.
  pose proof (extname_scan_file_name dir base ext Hdir Hbase Hbase_chars
                Hext Hext_chars) as Hx.
  split; [exact Hx|].
  unfold keep_file_node. cbn [Files.path]. rewrite Hx.
  unfold EXTENSIONS_has, EXTENSIONS. cbn [existsb]. rewrite orb_false_r.
  reflexivity.
Qed.

Lemma selection_by_file_name_witness :
  (Path.extname "src/lib/b.d.ts" = ".ts" /\
   keep_file_node {| Files.path := "src/lib/b.d.ts" |} = false) /\
  (Path.extname "a.js" = ".js" /\
   keep_file_node {| Files.path := "a.js" |} = true).
Proof.
  split.
  - apply (selection_by_file_name "src/lib/" "b.d" "ts").
    + right. now exists "src/lib".
    + discriminate.
    + reflexivity.
    + discriminate.
    + reflexivity.
  - apply (selection_by_file_name "" "a" "js").
    + now left.
    + discriminate.
    + reflexivity.
    + discriminate.
    + reflexivity.
Defined.

(** Filtering is stable: the paths selected from a pull request are all
    selected again when the filter is run on them, and every file name the
    push filter selects is one the pull-request filter selects from the
    same names. *)
Theorem selection_is_stable :
  (forall nodes,
     select_pull_request_files
       (map Files.mkFileNode (select_pull_request_files nodes))
     = select_pull_request_files nodes) /\
  (forall files,
     incl (select_commit_files files)
       (select_pull_request_files
          (map (fun file => Files.mkFileNode (Files.filename file)) files))).
Proof.
  split.
  - intros nodes. unfold select_pull_request_files.
    induction nodes as [|[p] nodes IH]; [reflexivity|].
    simpl. destruct (keep_file_node {| Files.path := p |}) eqn:E; [|exact IH].
    simpl. rewrite E. simpl. now rewrite IH.
  - intros files p Hp. unfold select_commit_files in Hp.
    apply in_map_iff in Hp as (file & <- & Hfile).
    apply filter_In in Hfile as [Hfile Hkeep].
    rewrite keep_commit_file_split in Hkeep.
    apply andb_true_iff in Hkeep as [Hkeep _].
    apply andb_true_iff in Hkeep as [Hkeep _].
    unfold select_pull_request_files. apply in_map_iff.
    exists (Files.mkFileNode (Files.filename file)). split; [reflexivity|].
    apply filter_In. split; [|exact Hkeep].
    apply in_map_iff. now exists file.
Qed.

(** With a [job-name] input, when the listing is refused, with a warning,
    or holds no check run of that name, the run creates a check run as if
    no name had been given, and keeps the id returned, or none when the
    creation is refused too. *)
Theorem job_name_falls_back_to_creation (env : Env) (currentSha : string) :
  getInput env "job-name" <> "" ->
  (forall e, listForRef env currentSha = Thrown e ->
     exists t id,
       obtain_check_run env currentSha
       = (octokit_checks_listForRef "in_progress" currentSha
            :: console_log permission_warning
            :: octokit_checks_create "ESLint" currentSha "in_progress" :: t,
          Returned id) /\
       (forall i, create env currentSha = Returned i -> id = Some i /\ t = []) /\
       (forall e', create env currentSha = Thrown e' ->
          id = None /\ t = [console_log permission_warning])) /\
  (forall checks, listForRef env currentSha = Returned checks ->
     (forall c, In c checks ->
        JS.toLowerCase (Checks.name c)
        <> JS.toLowerCase (getInput env "job-name")) ->
     exists t id,
       obtain_check_run env currentSha
       = (octokit_checks_listForRef "in_progress" currentSha
            :: octokit_checks_create "ESLint" currentSha "in_progress" :: t,
          Returned id) /\
       (forall i, create env currentSha = Returned i -> id = Some i /\ t = []) /\
       (forall e', create env currentSha = Thrown e' ->
          id = None /\ t = [console_log permission_warning])).
Proof.
  intros Hjob.
  assert (Htruthy : JS.truthy_string (getInput env "job-name") = true).
  { destruct (getInput env "job-name"); [contradiction | reflexivity]. }
  split.
  - intros e He.
    unfold obtain_check_run, call, try_catch, bind, emit, ret.
    rewrite Htruthy, He. simpl.
    destruct (create env currentSha) as [i|e'] eqn:Ec; simpl;
      eexists; eexists; (split; [reflexivity|]);
      split; intros x Hx; try discriminate; injection Hx as <-; auto.
  - intros checks Hlist Hnone.
    assert (Hfind : JS.find
              (fun c => String.eqb (JS.toLowerCase (Checks.name c))
                          (JS.toLowerCase (getInput env "job-name")))
              checks = None).
    { unfold JS.find. clear Hlist.
      induction checks as [|c checks IH]; [reflexivity|]. simpl.
      assert (Hc : String.eqb (JS.toLowerCase (Checks.name c))
                     (JS.toLowerCase (getInput env "job-name")) = false).
      { apply String.eqb_neq. apply Hnone. now left. }
      rewrite Hc. apply IH. intros c' Hc'. apply Hnone. now right. }
    unfold obtain_check_run, call, try_catch, bind, emit, ret.
    rewrite Htruthy, Hlist. cbv beta iota. rewrite Hfind. simpl.
    destruct (create env currentSha) as [i|e'] eqn:Ec; simpl;
      eexists; eexists; (split; [reflexivity|]);
      split; intros x Hx; try discriminate; injection Hx as <-; auto.
Qed.

Lemma job_name_falls_back_to_creation_witness :
  obtain_check_run Samples.env_listing_refused "deadbeef"
  = ([octokit_checks_listForRef "in_progress" "deadbeef";
      console_log permission_warning;
      octokit_checks_create "ESLint" "deadbeef" "in_progress"],
     Returned (Some 42)).
Proof.
  destruct (job_name_falls_back_to_creation Samples.env_listing_refused
              "deadbeef" ltac:(discriminate)) as (Hrefused & _).
  destruct (Hrefused "Resource not accessible by integration" eq_refl)
    as (t & id & Hrun & Hok & _).
  destruct (Hok 42 eq_refl) as (Hid & Ht).
  rewrite Hrun, Hid, Ht. reflexivity.
Defined.
